(** * XcodeBuildServer: a shallow embedding of [server.py]

    The development follows [src/multispy_xcode_build_server/server.py]:
    JSON payloads as [json.load] produces them, Python dictionaries as
    insertion-ordered association lists, exceptions as an error result,
    and the session's effects (logging, handler registration, protocol
    traffic) as an explicit state with a chronological event trace. *)

From Stdlib Require Import List String Ascii ZArith Bool Lia.
Import ListNotations.
Open Scope string_scope.
Open Scope list_scope.
Set Warnings "-register-all".

(** ** JSON values and Python dictionaries *)

(** A Python [dict] with string keys keeps insertion order; assignment to
    an existing key keeps the key's position. *)
Definition dict (V : Type) : Type := list (string * V).

Fixpoint dict_get {V} (k : string) (d : dict V) : option V :=
  match d with
  | [] => None
  | (k', v) :: d' => if String.eqb k k' then Some v else dict_get k d'
  end.

Definition dict_mem {V} (k : string) (d : dict V) : bool :=
  match dict_get k d with Some _ => true | None => false end.

Fixpoint dict_set {V} (k : string) (v : V) (d : dict V) : dict V :=
  match d with
  | [] => [(k, v)]
  | (k', v') :: d' =>
      if String.eqb k k' then (k', v) :: d' else (k', v') :: dict_set k v d'
  end.

Definition dict_keys {V} (d : dict V) : list string := map fst d.

(** What [json.load] yields.  Numbers are the integers: the code compares
    numbers with the literals [True] and [2] only, and floating point is
    left out of the model. *)
Inductive json : Type :=
| JNull
| JBool (b : bool)
| JInt (n : Z)
| JStr (s : string)
| JList (l : list json)
| JDict (kvs : dict json).

(** A Python dictionary has no repeated key. *)
Definition is_pydict {V} (d : dict V) : Prop := NoDup (dict_keys d).

(** ** Exceptions *)

Inductive exn : Type :=
| AssertionError
| KeyError (key : string)
| TypeError
| AttributeError
| ValueError
| MultilspyException (msg : string)
| BackendError (msg : string).

Inductive result (A : Type) : Type :=
| Ok (a : A)
| Raise (e : exn).
Arguments Ok {A} a.
Arguments Raise {A} e.

Definition rbind {A B} (r : result A) (f : A -> result B) : result B :=
  match r with Ok a => f a | Raise e => Raise e end.

Definition assert (b : bool) : result unit :=
  if b then Ok tt else Raise AssertionError.

Declare Scope res_scope.
Delimit Scope res_scope with res.
Notation "x <- c ;; k" := (rbind c (fun x => k))
  (at level 61, c at next level, right associativity) : res_scope.
Notation "c ;;; k" := (rbind c (fun _ => k))
  (at level 61, right associativity) : res_scope.

(** ** Python operators on JSON values *)

Definition isinstance_dict (v : json) : bool :=
  match v with JDict _ => true | _ => false end.

Definition isinstance_list (v : json) : bool :=
  match v with JList _ => true | _ => false end.

(** [v[k]] for a string key [k]: only a dict accepts it. *)
Definition getitem (v : json) (k : string) : result json :=
  match v with
  | JDict kvs =>
      match dict_get k kvs with Some x => Ok x | None => Raise (KeyError k) end
  | _ => Raise TypeError
  end.

(** [v == s] for a string literal [s]. *)
Definition py_eq_str (v : json) (s : string) : bool :=
  match v with JStr s' => String.eqb s' s | _ => false end.

(** [v == n] for an integer literal [n]; [True == 1] and [False == 0]. *)
Definition py_eq_int (v : json) (n : Z) : bool :=
  match v with
  | JInt m => Z.eqb m n
  | JBool b => Z.eqb (if b then 1 else 0) n
  | _ => false
  end.

(** [v == True]. *)
Definition py_eq_True (v : json) : bool := py_eq_int v 1.

(** [v == [s1, ..., sn]] for a list of string literals. *)
Fixpoint py_eq_strs (l : list json) (ss : list string) : bool :=
  match l, ss with
  | [], [] => true
  | x :: l', s :: ss' => py_eq_str x s && py_eq_strs l' ss'
  | _, _ => false
  end.

Definition py_eq_strlist (v : json) (ss : list string) : bool :=
  match v with JList l => py_eq_strs l ss | _ => false end.

(** Substring test, for [s in t] on strings. *)
Fixpoint is_substring (s t : string) : bool :=
  String.prefix s t ||
  match t with
  | EmptyString => false
  | String _ t' => is_substring s t'
  end.

(** [k in v] for a string literal [k]. *)
Definition py_in (k : string) (v : json) : result bool :=
  match v with
  | JDict kvs => Ok (dict_mem k kvs)
  | JList l => Ok (existsb (fun x => py_eq_str x k) l)
  | JStr s => Ok (is_substring k s)
  | _ => Raise TypeError
  end.

Fixpoint chars (s : string) : list json :=
  match s with
  | EmptyString => []
  | String c s' => JStr (String c EmptyString) :: chars s'
  end.

(** [for x in v]: the elements of a list, the keys of a dict, the
    characters of a string. *)
Definition py_iter (v : json) : result (list json) :=
  match v with
  | JList l => Ok l
  | JDict kvs => Ok (map (fun kv => JStr (fst kv)) kvs)
  | JStr s => Ok (chars s)
  | _ => Raise TypeError
  end.

(** [v.items()]: only a dict has the attribute. *)
Definition py_items (v : json) : result (dict json) :=
  match v with
  | JDict kvs => Ok kvs
  | _ => Raise AttributeError
  end.

(** ** Result translation: rename (lines 212-226) *)

(** A [TextEdit] is a dictionary; [TextEdit( **change)] builds a new one with
    the keys and values of [change]. *)
Definition TextEdit : Type := dict json.

(** The inner loop [for change in changes], appending to [edits]. *)
Fixpoint rename_edits (changes : list json) (edits : list TextEdit)
  : result (list TextEdit) :=
  match changes with
  | [] => Ok edits
  | change :: rest =>
      match change with
      | JDict fields =>
          (assert (dict_mem "range" fields) ;;;
           assert (dict_mem "newText" fields) ;;;
           rename_edits rest (edits ++ [fields]))%res
      | _ => Raise AssertionError
      end
  end.

(** The outer loop [for uri, changes in response["changes"].items()]. *)
Fixpoint rename_loop (items : dict json) (ret : dict (list TextEdit))
  : result (dict (list TextEdit)) :=
  match items with
  | [] => Ok ret
  | (uri, changes) :: rest =>
      match changes with
      | JList l =>
          (edits <- rename_edits l [] ;;
           rename_loop rest (dict_set uri edits ret))%res
      | _ => Raise AssertionError
      end
  end.

Definition rename_translate (response : json) : result (dict (list TextEdit)) :=
  (assert (isinstance_dict response) ;;;
   has <- py_in "changes" response ;;
   assert has ;;;
   changes <- getitem response "changes" ;;
   items <- py_items changes ;;
   rename_loop items [])%res.

(** ** Result translation: workspace symbols (lines 245-270) *)

Definition WorkspaceSymbol : Type := dict json.

(** [for field in [...]: if field in item: symbol[field] = item[field]] *)
Fixpoint copy_optional (fields : list string) (item : dict json)
  (symbol : WorkspaceSymbol) : WorkspaceSymbol :=
  match fields with
  | [] => symbol
  | field :: rest =>
      match dict_get field item with
      | Some v => copy_optional rest item (dict_set field v symbol)
      | None => copy_optional rest item symbol
      end
  end.

(** The conditional expression that computes the symbol's location. *)
Definition symbol_location (item : json) : result json :=
  (loc <- getitem item "location" ;;
   if isinstance_dict loc &&
      match loc with JDict lf => dict_mem "range" lf | _ => false end
   then getitem item "location"
   else
     loc' <- getitem item "location" ;;
     uri <- getitem loc' "uri" ;;
     Ok (JDict [("uri", uri)]))%res.

Definition symbol_of_item (item : json) : result WorkspaceSymbol :=
  match item with
  | JDict fields =>
      (name <- getitem item "name" ;;
       kind <- getitem item "kind" ;;
       location <- symbol_location item ;;
       Ok (copy_optional ["containerName"; "tags"; "data"] fields
             [("name", name); ("kind", kind); ("location", location)]))%res
  | _ => Raise AssertionError
  end.

Fixpoint symbols_loop (items : list json) (ret : list WorkspaceSymbol)
  : result (list WorkspaceSymbol) :=
  match items with
  | [] => Ok ret
  | item :: rest =>
      (symbol <- symbol_of_item item ;;
       symbols_loop rest (ret ++ [symbol]))%res
  end.

Definition symbols_translate (response : json) : result (list WorkspaceSymbol) :=
  match response with
  | JNull => Ok []
  | _ =>
      (assert (isinstance_list response) ;;;
       items <- py_iter response ;;
       symbols_loop items [])%res
  end.

(** ** The session: state, events and the effect monad *)

Inductive log_level : Type := INFO | ERROR.

(** The handlers [start_server] defines (lines 115-146). *)
Inductive handler : Type :=
| register_capability_handler
| lang_status_handler
| execute_client_command_handler
| window_log_message
| do_nothing.

(** What the session does to the outside, in the order it does it. *)
Inductive event : Type :=
| Log (msg : string) (arg : option json) (level : log_level)
| OnRequest (method : string) (h : handler)
| OnNotification (method : string) (h : handler)
| ProcessStart
| SendRequest (method : string) (params : json)
| SendNotification (method : string) (params : json)
| ServerShutdown
| ServerStop.

(** The attributes of the object that the methods read or write. *)
Record attrs : Type := {
  server_started : bool;
  completions_available : bool;
  service_ready_event : bool
}.

Record state : Type := {
  self : attrs;
  trace : list event
}.

Definition M (A : Type) : Type := state -> result A * state.

Definition ret {A} (a : A) : M A := fun st => (Ok a, st).
Definition raise {A} (e : exn) : M A := fun st => (Raise e, st).
Definition bind {A B} (m : M A) (f : A -> M B) : M B :=
  fun st =>
    match m st with
    | (Ok a, st') => f a st'
    | (Raise e, st') => (Raise e, st')
    end.
Definition lift {A} (r : result A) : M A := fun st => (r, st).
Definition emit (e : event) : M unit :=
  fun st => (Ok tt, {| self := self st; trace := trace st ++ [e] |}).
Definition get_self : M attrs := fun st => (Ok (self st), st).
Definition set_self (f : attrs -> attrs) : M unit :=
  fun st => (Ok tt, {| self := f (self st); trace := trace st |}).

Declare Scope m_scope.
Delimit Scope m_scope with M.
Notation "x <- c ;; k" := (bind c (fun x => k))
  (at level 61, c at next level, right associativity) : m_scope.
Notation "c ;;; k" := (bind c (fun _ => k))
  (at level 61, right associativity) : m_scope.

(** [with cm: body] for a context manager that releases on every exit
    path: [leave] runs whether [body] returns or raises, and the body's
    outcome is the outcome of the statement. *)
Definition with_finally {A} (enter : M unit) (leave : M unit) (body : M A) : M A :=
  fun st =>
    match enter st with
    | (Raise e, st1) => (Raise e, st1)
    | (Ok _, st1) =>
        let (r, st2) := body st1 in
        match leave st2 with
        | (Ok _, st3) => (r, st3)
        | (Raise e, st3) => (Raise e, st3)
        end
    end.

(** ** Paths (POSIX) *)

Definition isabs (p : string) : bool := String.prefix "/" p.

Fixpoint ends_with_slash (p : string) : bool :=
  match p with
  | EmptyString => false
  | String c EmptyString => Ascii.eqb c "/"
  | String _ p' => ends_with_slash p'
  end.

(** [os.path.join(a, b)] *)
Definition path_join (a b : string) : string :=
  if isabs b then b
  else if String.eqb a "" || ends_with_slash a then a ++ b
  else a ++ "/" ++ b.

(** [os.path.basename(p)]: what follows the last slash. *)
Fixpoint basename_aux (p acc : string) : string :=
  match p with
  | EmptyString => acc
  | String c p' =>
      if Ascii.eqb c "/" then basename_aux p' ""
      else basename_aux p' (acc ++ String c "")
  end.
Definition basename (p : string) : string := basename_aux p "".

(** ** The environment of a session *)

(** The operating system as the methods consult it. *)
Record OS : Type := {
  getpid : Z;                      (* os.getpid() *)
  abspath : string -> string;      (* os.path.abspath *)
  file_uri : string -> string      (* the URI text of an absolute path *)
}.

(** The language server process behind [self.server]: what each call on it
    returns or raises. *)
Record backend : Type := {
  start_outcome : result unit;
  respond : string -> json -> result json;
  shutdown_outcome : result unit;
  stop_outcome : result unit
}.

(** The inherited [LanguageServer.start_server] context manager, as far as
    it touches the object: what it does to the attributes on entry and on
    exit (with the exception that leaves the scope, if any). *)
Record base_class : Type := {
  base_enter : attrs -> attrs;
  base_exit : option exn -> attrs -> attrs
}.

Definition quote : string := String (ascii_of_nat 34) "".
Definition newline : string := String (ascii_of_nat 10) "".

Definition processId_marker : string := "os.getpid()".
Definition rootPath_marker : string := "repository_absolute_path".
Definition rootUri_marker : string :=
  "pathlib.Path(repository_absolute_path).as_uri()".
Definition workspaceFolders_marker : string :=
  "[" ++ newline ++
  "            {" ++ newline ++
  "                " ++ quote ++ "uri" ++ quote ++
    ": pathlib.Path(repository_absolute_path).as_uri()," ++ newline ++
  "                " ++ quote ++ "name" ++ quote ++
    ": os.path.basename(repository_absolute_path)," ++ newline ++
  "            }" ++ newline ++
  "        ]".

(** [d[k] = v] *)
Definition setitem (d : json) (k : string) (v : json) : result json :=
  match d with
  | JDict kvs => Ok (JDict (dict_set k v kvs))
  | _ => Raise TypeError
  end.

Section Session.

Variable os : OS.
Variable be : backend.
Variable base : base_class.
(** [self.repository_root_path] *)
Variable repository_root_path : string.
(** What [json.load] reads from [initialize_params.json]. *)
Variable initialize_params_json : result json.
(** The payloads of the two notifications of the inherited [open_file]. *)
Variable did_open_params did_close_params : string -> json.

(** [pathlib.Path(p).as_uri()]: a relative path has no file URI. *)
Definition as_uri (p : string) : result string :=
  if isabs p then Ok (file_uri os p) else Raise ValueError.

(** *** [_get_initialize_params] (lines 64-97) *)

Definition workspace_folders (uri name : string) : json :=
  JList [JDict [("uri", JStr uri); ("name", JStr name)]].

Definition _get_initialize_params (repository_absolute_path : string)
  : result json :=
  (d <- initialize_params_json ;;
   let repository_absolute_path :=
     if negb (isabs repository_absolute_path)
     then abspath os repository_absolute_path
     else repository_absolute_path in
   v <- getitem d "processId" ;;
   assert (py_eq_str v processId_marker) ;;;
   d <- setitem d "processId" (JInt (getpid os)) ;;
   v <- getitem d "rootPath" ;;
   assert (py_eq_str v rootPath_marker) ;;;
   d <- setitem d "rootPath" (JStr repository_absolute_path) ;;
   v <- getitem d "rootUri" ;;
   assert (py_eq_str v rootUri_marker) ;;;
   uri <- as_uri repository_absolute_path ;;
   d <- setitem d "rootUri" (JStr uri) ;;
   v <- getitem d "workspaceFolders" ;;
   assert (py_eq_str v workspaceFolders_marker) ;;;
   uri <- as_uri repository_absolute_path ;;
   d <- setitem d "workspaceFolders"
          (workspace_folders uri (basename repository_absolute_path)) ;;
   Ok d)%res.

(** *** Calls on [self.server] and [self.logger] *)

Definition log (msg : string) (level : log_level) : M unit :=
  emit (Log msg None level).

Definition send_request (method : string) (params : json) : M json :=
  (emit (SendRequest method params) ;;; lift (respond be method params))%M.

Definition notify (method : string) (params : json) : M unit :=
  emit (SendNotification method params).

Definition server_start : M unit :=
  (emit ProcessStart ;;; lift (start_outcome be))%M.
Definition server_shutdown : M unit :=
  (emit ServerShutdown ;;; lift (shutdown_outcome be))%M.
Definition server_stop : M unit :=
  (emit ServerStop ;;; lift (stop_outcome be))%M.

(** *** The handlers of [start_server] (lines 115-146) *)

Definition completion_triggers : list string := ["."; "@"; "#"; "*"; " "].

Definition set_completions_available : M unit :=
  set_self (fun a => {| server_started := server_started a;
                        completions_available := true;
                        service_ready_event := service_ready_event a |}).

Definition set_service_ready_event : M unit :=
  set_self (fun a => {| server_started := server_started a;
                        completions_available := completions_available a;
                        service_ready_event := true |}).

(** The body of [for registration in params["registrations"]]. *)
Definition register_one (registration : json) : M unit :=
  (method <- lift (getitem registration "method") ;;
   if py_eq_str method "textDocument/completion" then
     opts <- lift (getitem registration "registerOptions") ;;
     rp <- lift (getitem opts "resolveProvider") ;;
     lift (assert (py_eq_True rp)) ;;;
     opts <- lift (getitem registration "registerOptions") ;;
     tc <- lift (getitem opts "triggerCharacters") ;;
     lift (assert (py_eq_strlist tc completion_triggers)) ;;;
     set_completions_available
   else ret tt)%M.

Fixpoint register_all (registrations : list json) : M unit :=
  match registrations with
  | [] => ret tt
  | r :: rest => (register_one r ;;; register_all rest)%M
  end.

Definition run_register_capability_handler (params : json) : M json :=
  (has <- lift (py_in "registrations" params) ;;
   lift (assert has) ;;;
   regs <- lift (getitem params "registrations") ;;
   l <- lift (py_iter regs) ;;
   register_all l ;;;
   ret JNull)%M.

Definition run_lang_status_handler (params : json) : M json :=
  (ty <- lift (getitem params "type") ;;
   if py_eq_str ty "ServiceReady" then
     msg <- lift (getitem params "message") ;;
     if py_eq_str msg "ServiceReady"
     then set_service_ready_event ;;; ret JNull
     else ret JNull
   else ret JNull)%M.

Definition run_handler (h : handler) (params : json) : M json :=
  match h with
  | register_capability_handler => run_register_capability_handler params
  | lang_status_handler => run_lang_status_handler params
  | execute_client_command_handler => ret (JList [])
  | window_log_message =>
      (emit (Log "LSP: window/logMessage: " (Some params) INFO) ;;; ret JNull)%M
  | do_nothing => ret JNull
  end.

(** *** [start_server] (lines 99-177) *)

Definition register_handlers : list event :=
  [ OnRequest "client/registerCapability" register_capability_handler;
    OnNotification "language/status" lang_status_handler;
    OnNotification "window/logMessage" window_log_message;
    OnRequest "workspace/executeClientCommand" execute_client_command_handler;
    OnNotification "$/progress" do_nothing;
    OnNotification "textDocument/publishDiagnostics" do_nothing;
    OnNotification "language/actionableNotification" do_nothing ].

Fixpoint emit_all (es : list event) : M unit :=
  match es with
  | [] => ret tt
  | e :: rest => (emit e ;;; emit_all rest)%M
  end.

(** [async with super().start_server(): body] *)
Definition with_super_start_server {A} (body : M A) : M A :=
  fun st =>
    let st1 := {| self := base_enter base (self st); trace := trace st |} in
    let (r, st2) := body st1 in
    let exc := match r with Ok _ => None | Raise e => Some e end in
    (r, {| self := base_exit base exc (self st2); trace := trace st2 |}).

(** [assert init_response["capabilities"]["textDocumentSync"]["change"] == 2]
    (line 166) *)
Definition assert_sync_change (init_response : json) : result unit :=
  (caps <- getitem init_response "capabilities" ;;
   sync <- getitem caps "textDocumentSync" ;;
   change <- getitem sync "change" ;;
   assert (py_eq_int change 2))%res.

(** The generator of the context manager, with the caller's [async with]
    block in the place of [yield self]: an exception of the block is raised
    at the [yield] and leaves the generator from there. *)
Definition start_server {A} (scope : M A) : M A :=
  (emit_all register_handlers ;;;
   with_super_start_server
     (log "Starting XcodeBuildServer server process" INFO ;;;
      server_start ;;;
      initialize_params <- lift (_get_initialize_params repository_root_path) ;;
      log "Sending initialize request from LSP client to LSP server and awaiting response" INFO ;;;
      init_response <- send_request "initialize" initialize_params ;;
      lift (assert_sync_change init_response) ;;;
      notify "initialized" (JDict []) ;;;
      r <- scope ;;
      server_shutdown ;;;
      server_stop ;;;
      ret r))%M.

(** *** [open_file] *)

(** Modelled from the spec: the inherited [open_file] context manager, whose
    code is not part of the repository's sources.  The spec's Open-File
    Scope is created by sending [textDocument/didOpen] before the operation
    and released by sending [textDocument/didClose] on scope exit, including
    on error. *)
Definition open_file {A} (relative_file_path : string) (body : M A) : M A :=
  with_finally
    (notify "textDocument/didOpen" (did_open_params relative_file_path))
    (notify "textDocument/didClose" (did_close_params relative_file_path))
    body.

(** *** [request_rename] (lines 179-226) *)

Definition not_started : exn := MultilspyException "Language Server not started".

Definition rename_params (uri : string) (line column : Z) (new_name : string)
  : json :=
  JDict [ ("textDocument", JDict [("uri", JStr uri)]);
          ("position", JDict [("line", JInt line); ("character", JInt column)]);
          ("newName", JStr new_name) ].

Definition request_rename (relative_file_path : string) (line column : Z)
  (new_name : string) : M (dict (list TextEdit)) :=
  (a <- get_self ;;
   if negb (server_started a) then
     log "request_rename called before Language Server started" ERROR ;;;
     raise not_started
   else
     response <-
       open_file relative_file_path
         (uri <- lift (as_uri (path_join repository_root_path relative_file_path)) ;;
          send_request "textDocument/rename"
            (rename_params uri line column new_name)) ;;
     lift (rename_translate response))%M.

(** *** [request_workspace_symbols] (lines 228-270) *)

Definition request_workspace_symbols (query : string)
  : M (list WorkspaceSymbol) :=
  (a <- get_self ;;
   if negb (server_started a) then
     log "request_workspace_symbols called before Language Server started" ERROR ;;;
     raise not_started
   else
     response <- send_request "workspace/symbol" (JDict [("query", JStr query)]) ;;
     lift (symbols_translate response))%M.

End Session.

(** * Predicates of the properties, and sessions to run them on *)

(** An edit list entry the inner loop accepts: a dict with both keys. *)
Definition is_text_edit (fields : dict json) : bool :=
  dict_mem "range" fields && dict_mem "newText" fields.

Definition is_edit_json (change : json) : bool :=
  match change with JDict fields => is_text_edit fields | _ => false end.

Definition is_edit_list (changes : json) : bool :=
  match changes with JList l => forallb is_edit_json l | _ => false end.

Definition edit_fields (change : json) : TextEdit :=
  match change with JDict fields => fields | _ => [] end.

Definition edit_lists (changes : json) : list TextEdit :=
  match changes with JList l => map edit_fields l | _ => [] end.

(** The typed result of a loop that accepts every item, for a dictionary
    whose keys are new to [ret]. *)
Definition typed_items (items : dict json) : dict (list TextEdit) :=
  map (fun kv => (fst kv, edit_lists (snd kv))) items.

(** The state with [es] added to the trace. *)
Definition push (es : list event) (st : state) : state :=
  {| self := self st; trace := trace st ++ es |}.

(** The notifications of the open-file scope and the rename request. *)
Definition did_open (did_open_params : string -> json) (p : string) : event :=
  SendNotification "textDocument/didOpen" (did_open_params p).

Definition did_close (did_close_params : string -> json) (p : string) : event :=
  SendNotification "textDocument/didClose" (did_close_params p).

Definition rename_call (uri : string) (l c : Z) (n : string) : event :=
  SendRequest "textDocument/rename" (rename_params uri l c n).

(** The rename response that carries the typed mapping [typed]:
    [{"changes": {uri: [edit, ...]}}], possibly beside other fields. *)
Definition changes_json (typed : dict (list TextEdit)) : json :=
  JDict (map (fun kv => (fst kv, JList (map JDict (snd kv)))) typed).

Definition all_text_edits (typed : dict (list TextEdit)) : bool :=
  forallb (fun kv => forallb is_text_edit (snd kv)) typed.

(** A session on which the examples below run. *)
Definition demo_os : OS :=
  {| getpid := 4242;
     abspath := fun p => ("/work/" ++ p)%string;
     file_uri := fun p => ("file://" ++ p)%string |}.

Definition demo_range : json :=
  JDict [ ("start", JDict [("line", JInt 3); ("character", JInt 4)]);
          ("end", JDict [("line", JInt 3); ("character", JInt 7)]) ].

Definition demo_rename_response : json :=
  JDict [("changes",
          JDict [("file:///a.swift",
                  JList [JDict [("range", demo_range); ("newText", JStr "foo")]])])].

Definition demo_init_response : json :=
  JDict [("capabilities",
          JDict [("textDocumentSync", JDict [("openClose", JBool true);
                                             ("change", JInt 2)])])].

Definition demo_backend : backend :=
  {| start_outcome := Ok tt;
     respond := fun method _ =>
       if String.eqb method "textDocument/rename" then Ok demo_rename_response
       else if String.eqb method "initialize" then Ok demo_init_response
       else Ok JNull;
     shutdown_outcome := Ok tt;
     stop_outcome := Ok tt |}.

Definition demo_params (p : string) : json :=
  JDict [("textDocument", JDict [("uri", JStr ("file:///repo/" ++ p))])].

Definition started_state : state :=
  {| self := {| server_started := true;
                completions_available := false;
                service_ready_event := false |};
     trace := [] |}.

Definition fresh_state : state :=
  {| self := {| server_started := false;
                completions_available := false;
                service_ready_event := false |};
     trace := [] |}.

(** The shape the spec gives a rename response: an object whose [changes]
    field maps URIs to arrays of edit objects, each with a range and a
    replacement text. *)
Definition rename_shape (response : json) : bool :=
  match response with
  | JDict kvs =>
      match dict_get "changes" kvs with
      | Some (JDict items) => forallb (fun kv => is_edit_list (snd kv)) items
      | _ => false
      end
  | _ => false
  end.

(** An item the loop turns into a symbol: a dict with a name, a kind and a
    location that is a dict with a range or, without one, with a URI. *)
Definition well_formed_item (item : json) : bool :=
  match item with
  | JDict fields =>
      dict_mem "name" fields && dict_mem "kind" fields &&
      match dict_get "location" fields with
      | Some (JDict lf) => dict_mem "range" lf || dict_mem "uri" lf
      | _ => false
      end
  | _ => false
  end.

(** The shape the spec gives a workspace symbol response: a list of objects
    with name, kind and location (or null). *)
Definition symbols_shape (response : json) : bool :=
  match response with
  | JNull => true
  | JList items =>
      forallb (fun item =>
                 match item with
                 | JDict fields =>
                     dict_mem "name" fields && dict_mem "kind" fields &&
                     dict_mem "location" fields
                 | _ => false
                 end) items
  | _ => false
  end.

Definition demo_symbols : list json :=
  [ JDict [ ("name", JStr "Foo"); ("kind", JInt 5);
            ("location", JDict [("uri", JStr "file:///a.swift");
                                ("range", demo_range)]);
            ("containerName", JStr "App") ];
    JDict [ ("name", JStr "bar"); ("kind", JInt 12);
            ("location", JDict [("uri", JStr "file:///b.swift")]) ] ].

Definition symbols_backend : backend :=
  {| start_outcome := Ok tt;
     respond := fun method _ =>
       if String.eqb method "workspace/symbol" then Ok (JList demo_symbols)
       else Ok JNull;
     shutdown_outcome := Ok tt;
     stop_outcome := Ok tt |}.

Definition failing_backend : backend :=
  {| start_outcome := Ok tt;
     respond := fun method _ =>
       if String.eqb method "initialize" then Ok demo_init_response
       else Raise (BackendError "request failed");
     shutdown_outcome := Ok tt;
     stop_outcome := Ok tt |}.

(** What [start_server] has done when the initialize request is out. *)
Definition handshake_events (initialize_params : json) : list event :=
  [ Log "Starting XcodeBuildServer server process" None INFO;
    ProcessStart;
    Log "Sending initialize request from LSP client to LSP server and awaiting response"
      None INFO;
    SendRequest "initialize" initialize_params ].

(** The state the inherited context manager leaves on exit. *)
Definition base_leave (base : base_class) (exc : option exn) (st : state) : state :=
  {| self := base_exit base exc (self st); trace := trace st |}.

(** The [capabilities.textDocumentSync.change] field of a response. *)
Definition sync_change (init_response : json) : option json :=
  match init_response with
  | JDict r =>
      match dict_get "capabilities" r with
      | Some (JDict caps) =>
          match dict_get "textDocumentSync" caps with
          | Some (JDict sync) => dict_get "change" sync
          | _ => None
          end
      | _ => None
      end
  | _ => None
  end.

(** The state in which the initialize request has been sent. *)
Definition handshaking (base : base_class) (initialize_params : json)
  (st : state) : state :=
  {| self := base_enter base (self st);
     trace := trace st ++ register_handlers
                ++ handshake_events initialize_params |}.

(** A template with the four placeholders among other fields. *)
Definition demo_template : json :=
  JDict [ ("processId", JStr processId_marker);
          ("clientInfo", JDict [("name", JStr "multilspy")]);
          ("rootPath", JStr rootPath_marker);
          ("rootUri", JStr rootUri_marker);
          ("capabilities", JDict []);
          ("workspaceFolders", JStr workspaceFolders_marker) ].

Definition demo_initialize_params : json :=
  JDict [ ("processId", JInt 4242);
          ("clientInfo", JDict [("name", JStr "multilspy")]);
          ("rootPath", JStr "/repo");
          ("rootUri", JStr "file:///repo");
          ("capabilities", JDict []);
          ("workspaceFolders",
           JList [JDict [("uri", JStr "file:///repo"); ("name", JStr "repo")]]) ].

Definition demo_base : base_class :=
  {| base_enter := fun a =>
       {| server_started := true;
          completions_available := completions_available a;
          service_ready_event := service_ready_event a |};
     base_exit := fun _ a =>
       {| server_started := false;
          completions_available := completions_available a;
          service_ready_event := service_ready_event a |} |}.

(** A backend whose initialize response announces full-document sync
    (mode 1) instead of incremental sync. *)
Definition full_sync_backend : backend :=
  {| start_outcome := Ok tt;
     respond := fun _ _ =>
       Ok (JDict [("capabilities",
                   JDict [("textDocumentSync", JDict [("change", JInt 1)])])]);
     shutdown_outcome := Ok tt;
     stop_outcome := Ok tt |}.

(** Whatever a method does, it cannot take back what was sent: the trace
    only grows. *)
Definition appends {A} (m : M A) : Prop :=
  forall st, exists es, trace (snd (m st)) = trace st ++ es.

(** The path [_get_initialize_params] works with: the argument if it is
    absolute, its [os.path.abspath] otherwise. *)
Definition absolute_path (os : OS) (p : string) : string :=
  if negb (isabs p) then abspath os p else p.

(** A template field holds its placeholder. *)
Definition holds_marker (kvs : dict json) (k marker : string) : bool :=
  match dict_get k kvs with
  | Some v => py_eq_str v marker
  | None => false
  end.

Definition markers_match (d : json) : bool :=
  match d with
  | JDict kvs =>
      holds_marker kvs "processId" processId_marker &&
      holds_marker kvs "rootPath" rootPath_marker &&
      holds_marker kvs "rootUri" rootUri_marker &&
      holds_marker kvs "workspaceFolders" workspaceFolders_marker
  | _ => false
  end.

Definition has_placeholders (d : json) : bool :=
  match d with
  | JDict kvs =>
      dict_mem "processId" kvs && dict_mem "rootPath" kvs &&
      dict_mem "rootUri" kvs && dict_mem "workspaceFolders" kvs
  | _ => false
  end.

(** The template with the four values in the place of the placeholders. *)
Definition substituted (os : OS) (kvs : dict json) (path : string) : dict json :=
  dict_set "workspaceFolders"
    (workspace_folders (file_uri os path) (basename path))
    (dict_set "rootUri" (JStr (file_uri os path))
       (dict_set "rootPath" (JStr path)
          (dict_set "processId" (JInt (getpid os)) kvs))).

(** A registration for the completion method. *)
Definition is_completion (registration : json) : bool :=
  match registration with
  | JDict fields =>
      match dict_get "method" fields with
      | Some m => py_eq_str m "textDocument/completion"
      | None => false
      end
  | _ => false
  end.

(** A registration for another method. *)
Definition other_method (registration : json) : bool :=
  match registration with
  | JDict fields =>
      match dict_get "method" fields with
      | Some m => negb (py_eq_str m "textDocument/completion")
      | None => false
      end
  | _ => false
  end.

(** The field [registerOptions.k] of a registration. *)
Definition register_option (registration : json) (k : string) : option json :=
  match registration with
  | JDict fields =>
      match dict_get "registerOptions" fields with
      | Some (JDict opts) => dict_get k opts
      | _ => None
      end
  | _ => None
  end.

(** Both asserted comparisons hold: [resolveProvider == True] and
    [triggerCharacters == [".", "@", "#", "*", " "]]. *)
Definition options_match (registration : json) : bool :=
  match register_option registration "resolveProvider",
        register_option registration "triggerCharacters" with
  | Some rp, Some tc =>
      py_eq_True rp && py_eq_strlist tc completion_triggers
  | _, _ => false
  end.

Definition matching_completion (registration : json) : bool :=
  is_completion registration && options_match registration.

(** A registration the loop passes: another method, or a completion
    registration with the expected options. *)
Definition accepted (registration : json) : bool :=
  other_method registration || matching_completion registration.

Definition with_completions (st : state) : state :=
  {| self := {| server_started := server_started (self st);
                completions_available := true;
                service_ready_event := service_ready_event (self st) |};
     trace := trace st |}.

(** The state after a run of accepted registrations. *)
Definition after_accepted (regs : list json) (st : state) : state :=
  if existsb matching_completion regs then with_completions st else st.

Definition completion_registration (resolve triggers : json) : json :=
  JDict [ ("id", JStr "completion-1");
          ("method", JStr "textDocument/completion");
          ("registerOptions",
           JDict [ ("resolveProvider", resolve);
                   ("triggerCharacters", triggers) ]) ].

Definition expected_triggers : json :=
  JList [JStr "."; JStr "@"; JStr "#"; JStr "*"; JStr " "].

Definition demo_registrations : list json :=
  [ JDict [("id", JStr "sync-1"); ("method", JStr "textDocument/didChange")];
    completion_registration (JBool true) expected_triggers;
    completion_registration (JBool true) (JList [JStr "."]) ].

(** ** Predicates and sessions of the further properties *)

(** A [language/status] message that reports the service ready: both its
    [type] and its [message] are ["ServiceReady"]. *)
Definition status_ready (params : json) : bool :=
  match params with
  | JDict kvs =>
      match dict_get "type" kvs, dict_get "message" kvs with
      | Some ty, Some msg =>
          py_eq_str ty "ServiceReady" && py_eq_str msg "ServiceReady"
      | _, _ => false
      end
  | _ => false
  end.

(** A [language/status] message the handler can read: a dict with a [type]
    and, when the type is ["ServiceReady"], a [message]. *)
Definition status_readable (params : json) : bool :=
  match params with
  | JDict kvs =>
      match dict_get "type" kvs with
      | Some ty =>
          if py_eq_str ty "ServiceReady" then dict_mem "message" kvs else true
      | None => false
      end
  | _ => false
  end.

(** The state in which [server.start()] has been called and nothing has
    been sent yet. *)
Definition starting (base : base_class) (st : state) : state :=
  {| self := base_enter base (self st);
     trace := trace st ++ register_handlers
                ++ [ Log "Starting XcodeBuildServer server process" None INFO;
                     ProcessStart ] |}.

(** A backend whose process does not start. *)
Definition dead_backend : backend :=
  {| start_outcome := Raise (BackendError "sourcekit-lsp not found");
     respond := fun _ _ => Ok JNull;
     shutdown_outcome := Ok tt;
     stop_outcome := Ok tt |}.

(** A backend that answers the handshake and fails the shutdown request. *)
Definition stuck_backend : backend :=
  {| start_outcome := Ok tt;
     respond := fun method _ =>
       if String.eqb method "initialize" then Ok demo_init_response
       else Ok JNull;
     shutdown_outcome := Raise (BackendError "shutdown timed out");
     stop_outcome := Ok tt |}.

(** [FILE_PATH = f"{WORKSPACE_PATH}/{args.relative_file_path}"]
    ([examples/example_usage.py], line 26): the path the example passes to
    the queries as the relative file path. *)
Definition FILE_PATH (WORKSPACE_PATH relative_file_path : string) : string :=
  WORKSPACE_PATH ++ "/" ++ relative_file_path.

(** The four placeholder fields, in the order the method checks them. *)
Definition placeholder_fields : list string :=
  ["processId"; "rootPath"; "rootUri"; "workspaceFolders"].

(** The optional fields of a workspace symbol, in the order the loop copies
    them. *)
Definition optional_fields : list string := ["containerName"; "tags"; "data"].

(** The error the translation of one workspace symbol item ends with, if
    any: an item that is not a dict fails the assert; a dict fails at the
    first of [name], [kind], [location] it lacks with a key error, at a
    location that is not a dict with a type error, and at a location dict
    that has neither [range] nor [uri] with a key error. *)
Definition item_error (item : json) : option exn :=
  match item with
  | JDict fields =>
      if negb (dict_mem "name" fields) then Some (KeyError "name")
      else if negb (dict_mem "kind" fields) then Some (KeyError "kind")
      else
        match dict_get "location" fields with
        | None => Some (KeyError "location")
        | Some (JDict lf) =>
            if dict_mem "range" lf || dict_mem "uri" lf then None
            else Some (KeyError "uri")
        | Some _ => Some TypeError
        end
  | _ => Some AssertionError
  end.

(** * Properties *)

(** ** Dictionaries *)

Lemma dict_get_set {V} (k k' : string) (v : V) (d : dict V) :
  dict_get k (dict_set k' v d) =
  if String.eqb k k' then Some v else dict_get k d.
Proof.
  induction d as [|[k0 v0] d IH]; simpl.
  - destruct (String.eqb k k'); reflexivity.
  - destruct (String.eqb k' k0) eqn:E0; simpl.
    + apply String.eqb_eq in E0; subst k0.
      destruct (String.eqb k k'); reflexivity.
    + destruct (String.eqb k k0) eqn:E1.
      * apply String.eqb_eq in E1; subst k0.
        rewrite String.eqb_sym, E0. reflexivity.
      * exact IH.
Qed.

Lemma dict_get_none {V} (k : string) (d : dict V) :
  dict_get k d = None <-> ~ In k (dict_keys d).
Proof.
  induction d as [|[k0 v0] d IH]; simpl.
  - tauto.
  - destruct (String.eqb k k0) eqn:E.
    + apply String.eqb_eq in E. subst. split; [discriminate | tauto].
    + apply String.eqb_neq in E. rewrite IH. split.
      * intros H [H'|H']; [congruence | tauto].
      * tauto.
Qed.

Lemma dict_set_fresh {V} (k : string) (v : V) (d : dict V) :
  ~ In k (dict_keys d) -> dict_set k v d = (d ++ [(k, v)])%list.
Proof.
  induction d as [|[k0 v0] d IH]; simpl; intros H.
  - reflexivity.
  - destruct (String.eqb k k0) eqn:E.
    + apply String.eqb_eq in E. subst. tauto.
    + f_equal. apply IH. tauto.
Qed.

Lemma dict_keys_set {V} (k : string) (v : V) (d : dict V) :
  In k (dict_keys d) -> dict_keys (dict_set k v d) = dict_keys d.
Proof.
  induction d as [|[k0 v0] d IH]; simpl; intros H.
  - contradiction.
  - destruct (String.eqb k k0) eqn:E; simpl.
    + reflexivity.
    + f_equal. apply IH. apply String.eqb_neq in E.
      destruct H; [congruence | assumption].
Qed.

(** ** The rename translation *)

Lemma rename_edits_spec (changes : list json) (edits : list TextEdit) :
  rename_edits changes edits =
  if forallb is_edit_json changes
  then Ok (edits ++ map edit_fields changes)
  else Raise AssertionError.
Proof.
  revert edits; induction changes as [|c rest IH]; intros edits; simpl.
  - now rewrite app_nil_r.
  - destruct c; simpl; try reflexivity.
    unfold is_text_edit.
    destruct (dict_mem "range" kvs); simpl; [|reflexivity].
    destruct (dict_mem "newText" kvs); simpl; [|reflexivity].
    rewrite IH. destruct (forallb is_edit_json rest); [|reflexivity].
    now rewrite <- app_assoc.
Qed.

Lemma rename_loop_reject (items : dict json) (ret : dict (list TextEdit)) :
  forallb (fun kv => is_edit_list (snd kv)) items = false ->
  rename_loop items ret = Raise AssertionError.
Proof.
  revert ret; induction items as [|[uri ch] rest IH]; intros ret; simpl.
  - discriminate.
  - destruct ch; simpl; try reflexivity.
    rewrite rename_edits_spec.
    destruct (forallb is_edit_json l); simpl; [|reflexivity].
    apply IH.
Qed.

Lemma rename_loop_accept (items : dict json) (ret : dict (list TextEdit)) :
  forallb (fun kv => is_edit_list (snd kv)) items = true ->
  NoDup (dict_keys ret ++ dict_keys items)%list ->
  rename_loop items ret = Ok (ret ++ typed_items items)%list.
Proof.
  revert ret; induction items as [|[uri ch] rest IH]; intros ret; simpl.
  - intros _ _. now rewrite app_nil_r.
  - destruct ch; simpl; try discriminate.
    rewrite rename_edits_spec.
    destruct (forallb is_edit_json l); simpl; [|discriminate].
    intros Hall Hnd.
    assert (Hfresh : ~ In uri (dict_keys ret)).
    { intros Hin. apply NoDup_remove_2 in Hnd. apply Hnd.
      apply in_or_app. now left. }
    rewrite (dict_set_fresh _ _ _ Hfresh), IH; trivial.
    + now rewrite <- app_assoc.
    + unfold dict_keys in *. rewrite map_app, <- app_assoc. exact Hnd.
Qed.

Lemma rename_loop_ok_inv (items : dict json) (ret r : dict (list TextEdit)) :
  rename_loop items ret = Ok r ->
  forallb (fun kv => is_edit_list (snd kv)) items = true.
Proof.
  intros H.
  destruct (forallb (fun kv => is_edit_list (snd kv)) items) eqn:E; trivial.
  rewrite (rename_loop_reject _ _ E) in H. discriminate.
Qed.

Lemma rename_translate_dict (kvs : dict json) :
  rename_translate (JDict kvs) =
  match dict_get "changes" kvs with
  | None => Raise AssertionError
  | Some (JDict items) => rename_loop items []
  | Some _ => Raise AttributeError
  end.
Proof.
  unfold rename_translate, getitem, py_in, dict_mem; simpl.
  destruct (dict_get "changes" kvs) as [c|]; simpl; [|reflexivity].
  destruct c; reflexivity.
Qed.

(** ** The queries, once the started-precondition holds *)

Section Queries.

Variable os : OS.
Variable be : backend.
Variable repository_root_path : string.
Variable did_open_params did_close_params : string -> json.

(** The three ways through the [with] block of [request_rename]. *)
Lemma request_rename_started (p : string) (l c : Z) (n : string) (st : state) :
  server_started (self st) = true ->
  request_rename os be repository_root_path did_open_params did_close_params
    p l c n st =
  match as_uri os (path_join repository_root_path p) with
  | Raise e => (Raise e, push [did_open did_open_params p; did_close did_close_params p] st)
  | Ok uri =>
      match respond be "textDocument/rename" (rename_params uri l c n) with
      | Raise e =>
          (Raise e, push [did_open did_open_params p; rename_call uri l c n; did_close did_close_params p] st)
      | Ok response =>
          (rename_translate response,
           push [did_open did_open_params p; rename_call uri l c n; did_close did_close_params p] st)
      end
  end.
Proof.
  intros Hs.
  unfold request_rename, bind, get_self, open_file, with_finally, notify, emit,
    send_request, lift, push.
  rewrite Hs; simpl.
  destruct (as_uri os (path_join repository_root_path p)) as [uri|e]; simpl.
  - destruct (respond be "textDocument/rename" (rename_params uri l c n))
      as [response|e]; simpl; repeat rewrite <- app_assoc; reflexivity.
  - repeat rewrite <- app_assoc; reflexivity.
Qed.

Lemma request_workspace_symbols_started (q : string) (st : state) :
  server_started (self st) = true ->
  request_workspace_symbols be q st =
  let st' := push [SendRequest "workspace/symbol" (JDict [("query", JStr q)])] st in
  match respond be "workspace/symbol" (JDict [("query", JStr q)]) with
  | Raise e => (Raise e, st')
  | Ok response => (symbols_translate response, st')
  end.
Proof.
  intros Hs.
  unfold request_workspace_symbols, bind, get_self, send_request, emit, lift, push.
  rewrite Hs; simpl.
  destruct (respond be "workspace/symbol" (JDict [("query", JStr q)]));
    reflexivity.
Qed.

End Queries.

(** ** Rename round trip *)

Lemma typed_items_changes (typed : dict (list TextEdit)) :
  typed_items (map (fun kv => (fst kv, JList (map JDict (snd kv)))) typed)
  = typed.
Proof.
  unfold typed_items. rewrite map_map.
  rewrite <- (map_id typed) at 2. apply map_ext.
  intros [u es]; simpl. f_equal.
  rewrite map_map. simpl. apply map_id.
Qed.

Lemma edits_accept (es : list TextEdit) :
  forallb is_edit_json (map JDict es) = forallb is_text_edit es.
Proof.
  induction es as [|e es IH]; simpl; [reflexivity | now rewrite IH].
Qed.

Lemma changes_accept (typed : dict (list TextEdit)) :
  all_text_edits typed = true ->
  forallb (fun kv => is_edit_list (snd kv))
    (map (fun kv => (fst kv, JList (map JDict (snd kv)))) typed) = true.
Proof.
  unfold all_text_edits.
  induction typed as [|[u es] typed IH]; simpl; [reflexivity|].
  rewrite edits_accept. intros H. apply andb_true_iff in H as [H1 H2].
  now rewrite H1, IH.
Qed.

Lemma rename_translate_roundtrip (kvs : dict json) (typed : dict (list TextEdit)) :
  dict_get "changes" kvs = Some (changes_json typed) ->
  is_pydict typed ->
  all_text_edits typed = true ->
  rename_translate (JDict kvs) = Ok typed.
Proof.
  intros Hget Hnd Hall.
  rewrite rename_translate_dict, Hget. unfold changes_json.
  rewrite rename_loop_accept.
  - simpl. now rewrite typed_items_changes.
  - now apply changes_accept.
  - simpl. unfold is_pydict, dict_keys in *. now rewrite map_map.
Qed.

(** C1. For a rename response [{"changes": {uri: [edit, ...]}}] in which
    every edit is a dict with ["range"] and ["newText"], [request_rename] on
    a started session returns the mapping with the same URI keys in the same
    order, each with the list of its edits in the same order, every edit
    with the keys and values it has in the response. *)
Theorem request_rename_roundtrip
  (os : OS) (be : backend) (root : string) (dop dcl : string -> json)
  (p : string) (l c : Z) (n : string) (st : state)
  (uri : string) (kvs : dict json) (typed : dict (list TextEdit)) :
  server_started (self st) = true ->
  as_uri os (path_join root p) = Ok uri ->
  respond be "textDocument/rename" (rename_params uri l c n) = Ok (JDict kvs) ->
  dict_get "changes" kvs = Some (changes_json typed) ->
  is_pydict typed ->
  all_text_edits typed = true ->
  fst (request_rename os be root dop dcl p l c n st) = Ok typed.
Proof.
  intros Hs Huri Hresp Hget Hnd Hall.
  rewrite request_rename_started, Huri, Hresp by assumption.
  simpl. now apply rename_translate_roundtrip.
Qed.

(** The synthetic response of the spec: one key, one edit, [newText] foo. *)
Lemma request_rename_roundtrip_witness :
  fst (request_rename demo_os demo_backend "/repo" demo_params demo_params
         "a.swift" 3 4 "foo" started_state)
  = Ok [("file:///a.swift", [[("range", demo_range); ("newText", JStr "foo")]])].
Proof.
  apply (request_rename_roundtrip demo_os demo_backend "/repo" demo_params
           demo_params "a.swift" 3 4 "foo" started_state
           "file:///repo/a.swift"
           [("changes",
             JDict [("file:///a.swift",
                     JList [JDict [("range", demo_range);
                                   ("newText", JStr "foo")]])])]).
  - reflexivity.
  - reflexivity.
  - reflexivity.
  - reflexivity.
  - unfold is_pydict; simpl. constructor; [simpl; tauto | constructor].
  - reflexivity.
Defined.

(** ** Which error a malformed rename response raises *)

Lemma rename_loop_total (items : dict json) (ret : dict (list TextEdit)) :
  forallb (fun kv => is_edit_list (snd kv)) items = true ->
  exists r, rename_loop items ret = Ok r.
Proof.
  revert ret; induction items as [|[uri ch] rest IH]; intros ret; simpl.
  - intros _. now exists ret.
  - destruct ch; simpl; try discriminate.
    rewrite rename_edits_spec.
    destruct (forallb is_edit_json l); simpl; [|discriminate].
    apply IH.
Qed.

Lemma rename_loop_outcome (items : dict json) (ret : dict (list TextEdit)) :
  (forallb (fun kv => is_edit_list (snd kv)) items = true /\
   exists r, rename_loop items ret = Ok r) \/
  (forallb (fun kv => is_edit_list (snd kv)) items = false /\
   rename_loop items ret = Raise AssertionError).
Proof.
  destruct (forallb (fun kv => is_edit_list (snd kv)) items) eqn:E.
  - left. split; trivial. now apply rename_loop_total.
  - right. split; trivial. now apply rename_loop_reject.
Qed.

Lemma forallb_false_In {A} (f : A -> bool) (l : list A) :
  forallb f l = false <-> exists x, In x l /\ f x = false.
Proof.
  induction l as [|a l IH]; simpl.
  - split; [discriminate | intros [x [[] _]]].
  - rewrite andb_false_iff, IH. split.
    + intros [H|[x [H1 H2]]]; [exists a; auto | exists x; auto].
    + intros [x [[->|H1] H2]]; [now left | right; now exists x].
Qed.

(** ** The workspace symbol translation *)

Lemma copy_optional_location (item : dict json) (name kind location : json) :
  dict_get "location"
    (copy_optional ["containerName"; "tags"; "data"] item
       [("name", name); ("kind", kind); ("location", location)])
  = Some location.
Proof.
  simpl.
  destruct (dict_get "containerName" item), (dict_get "tags" item),
    (dict_get "data" item); reflexivity.
Qed.

Lemma symbol_of_item_not_dict (item : json) :
  symbol_of_item item = Raise AssertionError <-> isinstance_dict item = false.
Proof.
  destruct item as [| b | n | s | l | kvs]; simpl; try (split; reflexivity).
  split; [|discriminate].
  unfold symbol_location, getitem; simpl.
  destruct (dict_get "name" kvs); simpl; [|discriminate].
  destruct (dict_get "kind" kvs); simpl; [|discriminate].
  destruct (dict_get "location" kvs) as [loc|]; simpl; [|discriminate].
  destruct loc as [| b | n | s | l | lf]; simpl; try discriminate.
  destruct (dict_mem "range" lf); simpl; [discriminate|].
  destruct (dict_get "uri" lf); simpl; discriminate.
Qed.

Lemma symbol_of_item_ok (item : json) :
  (exists s, symbol_of_item item = Ok s) <-> well_formed_item item = true.
Proof.
  destruct item as [| b | n | s | l | kvs]; simpl;
    try (split; [intros [s' H]|]; discriminate).
  unfold symbol_location, getitem, dict_mem; simpl.
  destruct (dict_get "name" kvs); simpl;
    [|split; [intros [s H]|]; discriminate].
  destruct (dict_get "kind" kvs); simpl;
    [|split; [intros [s H]|]; discriminate].
  destruct (dict_get "location" kvs) as [loc|]; simpl;
    [|split; [intros [s H]|]; discriminate].
  destruct loc as [| b | n | s | l | lf]; simpl;
    try (split; [intros [s' H]|]; discriminate).
  destruct (dict_get "range" lf); simpl.
  - split; [reflexivity | intros _; eexists; reflexivity].
  - destruct (dict_get "uri" lf); simpl.
    + split; [reflexivity | intros _; eexists; reflexivity].
    + split; [intros [s H]|]; discriminate.
Qed.

(** The location of the symbol built from a dict item whose location is a
    dict. *)
Lemma symbol_of_item_location (fields lf : dict json) (sym : WorkspaceSymbol) :
  symbol_of_item (JDict fields) = Ok sym ->
  dict_get "location" fields = Some (JDict lf) ->
  (dict_mem "range" lf = true ->
   dict_get "location" sym = Some (JDict lf)) /\
  (dict_mem "range" lf = false ->
   exists u, dict_get "uri" lf = Some u /\
             dict_get "location" sym = Some (JDict [("uri", u)])).
Proof.
  intros Hsym Hloc. simpl in Hsym.
  unfold symbol_location, getitem in Hsym; simpl in Hsym.
  destruct (dict_get "name" fields) as [name|]; simpl in Hsym; [|discriminate].
  destruct (dict_get "kind" fields) as [kind|]; simpl in Hsym; [|discriminate].
  rewrite Hloc in Hsym; simpl in Hsym.
  destruct (dict_mem "range" lf) eqn:Hr; simpl in Hsym.
  - injection Hsym as <-. split; [|discriminate].
    intros _. apply copy_optional_location.
  - destruct (dict_get "uri" lf) as [u|]; simpl in Hsym; [|discriminate].
    injection Hsym as <-. split; [discriminate|].
    intros _. exists u. split; [reflexivity|]. apply copy_optional_location.
Qed.

(** What the loop returns is the symbols of its items, in order, after what
    it had. *)
Lemma symbols_loop_ok (items : list json) (acc ret : list WorkspaceSymbol) :
  symbols_loop items acc = Ok ret ->
  exists syms, ret = acc ++ syms /\
               Forall2 (fun item sym => symbol_of_item item = Ok sym) items syms.
Proof.
  revert acc; induction items as [|item rest IH]; intros acc; simpl.
  - intros [= <-]. exists []. split; [now rewrite app_nil_r | constructor].
  - destruct (symbol_of_item item) as [sym|e] eqn:E; simpl; [|discriminate].
    intros H. apply IH in H as [syms [-> HF]].
    exists (sym :: syms). split; [now rewrite <- app_assoc | now constructor].
Qed.

Lemma symbols_loop_total (items : list json) (acc : list WorkspaceSymbol) :
  forallb well_formed_item items = true ->
  exists ret, symbols_loop items acc = Ok ret.
Proof.
  revert acc; induction items as [|item rest IH]; intros acc; simpl.
  - intros _. now exists acc.
  - intros H. apply andb_true_iff in H as [H1 H2].
    apply symbol_of_item_ok in H1 as [s ->]. simpl. now apply IH.
Qed.

(** A loop that raises stops at its first item that is not well formed, with
    that item's error. *)
Lemma symbols_loop_raise (items : list json) (acc : list WorkspaceSymbol) (e : exn) :
  symbols_loop items acc = Raise e <->
  exists pre x post, items = pre ++ x :: post /\
                     forallb well_formed_item pre = true /\
                     symbol_of_item x = Raise e.
Proof.
  revert acc; induction items as [|item rest IH]; intros acc; simpl.
  - split; [discriminate|].
    intros [pre [x [post [H _]]]]. destruct pre; discriminate.
  - destruct (symbol_of_item item) as [sym|e'] eqn:E; simpl.
    + rewrite IH. split.
      * intros [pre [x [post [-> [Hp Hx]]]]].
        exists (item :: pre), x, post. simpl. repeat split; trivial.
        rewrite Hp, andb_true_r. apply symbol_of_item_ok. now exists sym.
      * intros [pre [x [post [Heq [Hp Hx]]]]].
        destruct pre as [|p pre]; simpl in *.
        -- injection Heq as -> ->. congruence.
        -- injection Heq as -> ->.
           apply andb_true_iff in Hp as [_ Hp].
           now exists pre, x, post.
    + split.
      * intros [= ->]. now exists [], item, rest.
      * intros [pre [x [post [Heq [Hp Hx]]]]].
        destruct pre as [|p pre]; simpl in *.
        -- injection Heq as -> ->. congruence.
        -- injection Heq as -> ->.
           apply andb_true_iff in Hp as [Hp _].
           apply symbol_of_item_ok in Hp as [s Hs]. congruence.
Qed.

(** C2. On a started session, a null response to [workspace/symbol] yields
    the empty list and no error; a list of well-formed items yields a
    result; and in every result, the symbol of an item whose location is a
    dict without ["range"] has the location [{"uri": uri}] with the item's
    URI only, while a location dict with ["range"] is kept as it is. *)
Theorem request_workspace_symbols_locations
  (be : backend) (q : string) (st : state) :
  server_started (self st) = true ->
  (respond be "workspace/symbol" (JDict [("query", JStr q)]) = Ok JNull ->
   fst (request_workspace_symbols be q st) = Ok []) /\
  (forall items,
     respond be "workspace/symbol" (JDict [("query", JStr q)]) = Ok (JList items) ->
     (forallb well_formed_item items = true ->
      exists ret, fst (request_workspace_symbols be q st) = Ok ret) /\
     (forall ret,
        fst (request_workspace_symbols be q st) = Ok ret ->
        List.length ret = List.length items /\
        forall i fields lf,
          nth_error items i = Some (JDict fields) ->
          dict_get "location" fields = Some (JDict lf) ->
          exists sym,
            nth_error ret i = Some sym /\
            (dict_mem "range" lf = true ->
             dict_get "location" sym = Some (JDict lf)) /\
            (dict_mem "range" lf = false ->
             exists u, dict_get "uri" lf = Some u /\
                       dict_get "location" sym = Some (JDict [("uri", u)])))).
Proof.
  intros Hs. rewrite request_workspace_symbols_started by assumption.
  split.
  - intros ->. reflexivity.
  - intros items ->. simpl. split.
    + intros Hwf. now apply symbols_loop_total.
    + intros ret Hret. apply symbols_loop_ok in Hret as [syms [-> HF]].
      simpl. split.
      * symmetry. eapply Forall2_length; eassumption.
      * intros i. revert items syms HF.
        induction i as [|i IH]; intros items syms HF fields lf Hi Hloc.
        -- destruct HF as [|item sym items syms H1 HF]; [discriminate|].
           simpl in Hi. injection Hi as ->.
           exists sym. split; [reflexivity|].
           eapply symbol_of_item_location; eassumption.
        -- destruct HF as [|item sym items syms H1 HF]; [discriminate|].
           simpl in Hi. simpl. eapply IH; eassumption.
Qed.

Lemma request_workspace_symbols_locations_witness :
  fst (request_workspace_symbols demo_backend "Foo" started_state) = Ok [] /\
  exists ret,
    fst (request_workspace_symbols symbols_backend "Foo" started_state) = Ok ret.
Proof.
  split.
  - apply (request_workspace_symbols_locations demo_backend "Foo" started_state);
      reflexivity.
  - apply (request_workspace_symbols_locations symbols_backend "Foo"
             started_state eq_refl) with (items := demo_symbols);
      reflexivity.
Defined.

(** ** Error classes of the two translations *)

(** C7, as the spec states it, fails: a rename response whose [changes] is
    not an object does not have the expected shape, and a workspace symbol
    response with an item that is not a dict does not either, yet neither
    raises an assertion error. *)
Lemma shape_error_class_counterexample :
  rename_shape (JDict [("changes", JNull)]) = false /\
  rename_translate (JDict [("changes", JNull)]) = Raise AttributeError /\
  symbols_shape (JList [JDict [("kind", JInt 5)]; JInt 7]) = false /\
  symbols_translate (JList [JDict [("kind", JInt 5)]; JInt 7])
    = Raise (KeyError "name").
Proof. repeat split. Qed.

Lemma symbol_of_item_error (item : json) (e : exn) :
  symbol_of_item item = Raise e <-> item_error item = Some e.
Proof.
  destruct item as [| b | n | s | l | kvs]; simpl;
    try (split; intros [= <-]; reflexivity).
  unfold symbol_location, getitem, dict_mem; simpl.
  destruct (dict_get "name" kvs); simpl;
    [|split; intros [= <-]; reflexivity].
  destruct (dict_get "kind" kvs); simpl;
    [|split; intros [= <-]; reflexivity].
  destruct (dict_get "location" kvs) as [loc|]; simpl;
    [|split; intros [= <-]; reflexivity].
  destruct loc as [| b | n | s | l | lf]; simpl;
    try (split; intros [= <-]; reflexivity).
  destruct (dict_get "range" lf); simpl; [split; discriminate|].
  destruct (dict_get "uri" lf); simpl;
    [split; discriminate | split; intros [= <-]; reflexivity].
Qed.

(** C7, amended.  [rename_translate] raises an assertion error exactly when
    the response is not a dict, has no ["changes"], or has a dict of changes
    one of whose values is not a list of dicts with both ["range"] and
    ["newText"]; changes that are not a dict raise an attribute error; a
    result is returned exactly for a response of the expected shape.
    [symbols_translate] raises an assertion error exactly when the response
    is neither null nor a list, or the first item of the list that is not
    well formed is not a dict; a list with an item that is not a dict always
    raises; a result is returned exactly for null and for a list of
    well-formed items, which has the expected shape; and the error raised on
    a list is the error of its first item that is not well formed: the
    assertion error for an item that is not a dict, a key error for the
    first of [name], [kind], [location] a dict item lacks, a type error for
    a location that is not a dict, and a key error for a location dict with
    neither [range] nor [uri]. *)
Theorem shape_validation_errors (response : json) :
  (rename_translate response = Raise AssertionError <->
     isinstance_dict response = false \/
     (exists kvs, response = JDict kvs /\ dict_get "changes" kvs = None) \/
     (exists kvs items uri v,
        response = JDict kvs /\ dict_get "changes" kvs = Some (JDict items) /\
        In (uri, v) items /\ is_edit_list v = false)) /\
  (rename_translate response = Raise AttributeError <->
     exists kvs c, response = JDict kvs /\ dict_get "changes" kvs = Some c /\
                   isinstance_dict c = false) /\
  (forall ret, rename_translate response = Ok ret ->
               rename_shape response = true) /\
  (symbols_translate response = Raise AssertionError <->
     (response <> JNull /\ isinstance_list response = false) \/
     (exists pre x post,
        response = JList (pre ++ x :: post) /\
        forallb well_formed_item pre = true /\ isinstance_dict x = false)) /\
  (forall items x,
     response = JList items -> In x items -> isinstance_dict x = false ->
     exists e, symbols_translate response = Raise e) /\
  (forall ret, symbols_translate response = Ok ret ->
               symbols_shape response = true) /\
  ((exists ret, rename_translate response = Ok ret) <->
     rename_shape response = true) /\
  ((exists ret, symbols_translate response = Ok ret) <->
     response = JNull \/
     exists items, response = JList items /\
                   forallb well_formed_item items = true) /\
  (forall e,
     symbols_translate response = Raise e <->
     (response <> JNull /\ isinstance_list response = false /\
      e = AssertionError) \/
     (exists pre x post,
        response = JList (pre ++ x :: post) /\
        forallb well_formed_item pre = true /\ item_error x = Some e)).
Proof.
  refine (conj _ (conj _ (conj _ (conj _ (conj _ (conj _ (conj _ (conj _ _)))))))).
  - (* rename: assertion errors *)
    destruct response as [| b | n | s | l | kvs];
      try (split; [intros _; now left | reflexivity]).
    rewrite rename_translate_dict.
    destruct (dict_get "changes" kvs) as [c|] eqn:Hc.
    + destruct c as [| b | n | s | l | items];
        try (split; [discriminate |];
             intros [H|[[k [[= <-] H]]|[k [it [u [v [[= <-] [H _]]]]]]]];
             [discriminate H | congruence | congruence]).
      destruct (rename_loop_outcome items []) as [[Ha [r Hr]]|[Ha Hr]];
        rewrite Hr.
      * split; [discriminate|].
        intros [H|[[k [[= <-] H]]|[k [it [u [v [[= <-] [H [Hin Hv]]]]]]]]];
          [discriminate H | congruence |].
        rewrite Hc in H. injection H as <-.
        assert (Hf : forallb (fun kv => is_edit_list (snd kv)) items = false).
        { apply forallb_false_In. now exists (u, v). }
        congruence.
      * split; [|reflexivity]. intros _. right; right.
        apply forallb_false_In in Ha as [[u v] [Hin Hv]].
        now exists kvs, items, u, v.
    + split; [|reflexivity]. intros _. right; left. now exists kvs.
  - (* rename: attribute errors *)
    destruct response as [| b | n | s | l | kvs];
      try (split; [discriminate | intros [k [c [[=] _]]]]).
    rewrite rename_translate_dict.
    destruct (dict_get "changes" kvs) as [c|] eqn:Hc.
    + destruct c as [| b | n | s | l | items];
        try (split; [intros _; exists kvs; eexists;
                     split; [reflexivity | split; [exact Hc | reflexivity]]
                    | reflexivity]).
      destruct (rename_loop_outcome items []) as [[Ha [r Hr]]|[Ha Hr]];
        rewrite Hr; (split; [discriminate|]);
        intros [k [c [[= <-] [H1 H2]]]]; rewrite Hc in H1;
        injection H1 as <-; discriminate.
    + split; [discriminate|].
      intros [k [c [[= <-] [H1 _]]]]. congruence.
  - (* rename: results *)
    intros ret.
    destruct response as [| b | n | s | l | kvs]; try discriminate.
    rewrite rename_translate_dict. simpl.
    destruct (dict_get "changes" kvs) as [c|]; [|discriminate].
    destruct c as [| b | n | s | l | items]; try discriminate.
    apply rename_loop_ok_inv.
  - (* symbols: assertion errors *)
    destruct response as [| b | n | s | l | kvs]; simpl;
      try (split; [intros _; left; split; [discriminate | reflexivity]
                  | reflexivity]).
    + split; [discriminate|].
      intros [[H _]|[pre [x [post [[=] _]]]]]. congruence.
    + rewrite symbols_loop_raise. split.
      * intros [pre [x [post [-> [Hp Hx]]]]]. right.
        exists pre, x, post. repeat split; trivial.
        now apply symbol_of_item_not_dict.
      * intros [[_ [=]]|[pre [x [post [[= ->] [Hp Hx]]]]]].
        exists pre, x, post. repeat split; trivial.
        now apply symbol_of_item_not_dict.
  - (* symbols: an item that is not a dict *)
    intros items x -> Hin Hx. simpl.
    destruct (symbols_loop items []) as [ret|e] eqn:E; [|now exists e].
    apply symbols_loop_ok in E as [syms [_ HF]].
    exfalso. clear ret. induction HF as [|item sym items syms H1 HF IH].
    + contradiction.
    + destruct Hin as [->|Hin]; [|now apply IH].
      apply symbol_of_item_not_dict in Hx. congruence.
  - (* symbols: results *)
    intros ret.
    destruct response as [| b | n | s | l | kvs]; simpl; try discriminate;
      [reflexivity|].
    intros H. apply symbols_loop_ok in H as [syms [_ HF]]. clear ret.
    induction HF as [|item sym items syms H1 HF IH]; simpl; [reflexivity|].
    rewrite IH, andb_true_r.
    assert (Hw : well_formed_item item = true)
      by (apply symbol_of_item_ok; now exists sym).
    destruct item as [| b | n | s | l | kvs]; simpl in *; try discriminate.
    apply andb_true_iff in Hw as [Hw Hl]. rewrite Hw. simpl.
    unfold dict_mem. destruct (dict_get "location" kvs); [reflexivity|discriminate].
  - (* rename: a result exactly for the expected shape *)
    destruct response as [| b | n | s | l | kvs]; simpl;
      try (split; [intros [ret H]|]; discriminate).
    rewrite rename_translate_dict.
    destruct (dict_get "changes" kvs) as [c|];
      [|split; [intros [ret H]|]; discriminate].
    destruct c as [| b | n | s | l | items];
      try (split; [intros [ret H]|]; discriminate).
    split.
    + intros [ret H]. now apply rename_loop_ok_inv in H.
    + apply rename_loop_total.
  - (* symbols: a result exactly for null and well-formed items *)
    destruct response as [| b | n | s | l | kvs]; simpl;
      try (split; [intros [ret H]; discriminate
                  | intros [H|[items [H _]]]; discriminate]).
    + split; [now left | intros _; now exists []].
    + split.
      * intros [ret H]. right. exists l. split; [reflexivity|].
        destruct (forallb well_formed_item l) eqn:E; trivial.
        apply forallb_false_In in E as [x [Hin Hx]].
        apply in_split in Hin as [l1 [l2 ->]].
        apply symbols_loop_ok in H as [syms [_ HF]].
        apply Forall2_app_inv_l in HF as [s1 [s2 [_ [HF _]]]].
        inversion HF as [|y sym l2' s2' Hy HF']; subst.
        assert (Hw : well_formed_item x = true)
          by (apply symbol_of_item_ok; now exists sym).
        congruence.
      * intros [H|[items [[= <-] Hw]]]; [discriminate|].
        now apply symbols_loop_total.
  - (* symbols: the error raised *)
    intros e.
    destruct response as [| b | n | s | l | kvs]; simpl;
      try (split;
           [intros [= <-]; left; repeat split; discriminate
           | intros [[_ [_ ->]]|[pre [x [post [H _]]]]];
             [reflexivity | discriminate H]]).
    + split; [discriminate|].
      intros [[H _]|[pre [x [post [H _]]]]]; [congruence | discriminate H].
    + rewrite symbols_loop_raise. split.
      * intros [pre [x [post [-> [Hp Hx]]]]]. right.
        exists pre, x, post. repeat split; trivial.
        now apply symbol_of_item_error.
      * intros [[_ [H _]]|[pre [x [post [[= ->] [Hp Hx]]]]]];
          [discriminate H|].
        exists pre, x, post. repeat split; trivial.
        now apply symbol_of_item_error.
Qed.

(** ** Queries before the session is started *)

(** C4. Before the session is started, [request_rename] (for any path,
    position and name) and [request_workspace_symbols] (for any query) raise
    the precondition error "Language Server not started"; the error log
    entry is all they add to the trace: no file is opened, no request or
    notification is sent, and the attributes are untouched. *)
Theorem queries_rejected_before_start
  (os : OS) (be : backend) (root : string) (dop dcl : string -> json)
  (p : string) (l c : Z) (n q : string) (st : state) :
  server_started (self st) = false ->
  request_rename os be root dop dcl p l c n st
    = (Raise (MultilspyException "Language Server not started"),
       push [Log "request_rename called before Language Server started"
               None ERROR] st) /\
  request_workspace_symbols be q st
    = (Raise (MultilspyException "Language Server not started"),
       push [Log "request_workspace_symbols called before Language Server started"
               None ERROR] st).
Proof.
  intros Hs.
  unfold request_rename, request_workspace_symbols, bind, get_self, log, emit,
    raise, push.
  rewrite Hs. split; reflexivity.
Qed.

Lemma queries_rejected_before_start_witness :
  request_rename demo_os demo_backend "/repo" demo_params demo_params
    "a.swift" 3 4 "foo" fresh_state
    = (Raise (MultilspyException "Language Server not started"),
       push [Log "request_rename called before Language Server started"
               None ERROR] fresh_state) /\
  request_workspace_symbols demo_backend "Foo" fresh_state
    = (Raise (MultilspyException "Language Server not started"),
       push [Log "request_workspace_symbols called before Language Server started"
               None ERROR] fresh_state).
Proof.
  apply (queries_rejected_before_start demo_os demo_backend "/repo"
           demo_params demo_params "a.swift" 3 4 "foo" "Foo" fresh_state).
  reflexivity.
Defined.

(** ** The open-file scope of [request_rename] *)

(** C6. Once the started-precondition holds, every execution of
    [request_rename] sends [didOpen] for the file, then at most the rename
    request, then [didClose] for the file, and nothing else: the close
    signal is sent exactly once, after the open signal, whether the URI
    cannot be built, the request raises, the response fails validation, or
    the query succeeds. *)
Theorem request_rename_closes_after_open
  (os : OS) (be : backend) (root : string) (dop dcl : string -> json)
  (p : string) (l c : Z) (n : string) (st : state) :
  server_started (self st) = true ->
  exists mid,
    trace (snd (request_rename os be root dop dcl p l c n st))
      = trace st
        ++ [SendNotification "textDocument/didOpen" (dop p)]
        ++ mid
        ++ [SendNotification "textDocument/didClose" (dcl p)] /\
    (mid = [] \/
     exists uri,
       mid = [SendRequest "textDocument/rename" (rename_params uri l c n)]).
Proof.
  intros Hs. rewrite request_rename_started by assumption.
  destruct (as_uri os (path_join root p)) as [uri|e].
  - exists [SendRequest "textDocument/rename" (rename_params uri l c n)].
    split; [|right; now exists uri].
    destruct (respond be "textDocument/rename" (rename_params uri l c n));
      reflexivity.
  - exists []. split; [reflexivity | now left].
Qed.

Lemma request_rename_closes_after_open_witness :
  fst (request_rename demo_os failing_backend "/repo" demo_params demo_params
         "a.swift" 3 4 "foo" started_state)
    = Raise (BackendError "request failed") /\
  exists mid,
    trace (snd (request_rename demo_os failing_backend "/repo" demo_params
                  demo_params "a.swift" 3 4 "foo" started_state))
      = trace started_state
        ++ [SendNotification "textDocument/didOpen" (demo_params "a.swift")]
        ++ mid
        ++ [SendNotification "textDocument/didClose" (demo_params "a.swift")] /\
    (mid = [] \/
     exists uri,
       mid = [SendRequest "textDocument/rename" (rename_params uri 3 4 "foo")]).
Proof.
  split; [reflexivity|].
  apply (request_rename_closes_after_open demo_os failing_backend "/repo"
           demo_params demo_params "a.swift" 3 4 "foo" started_state).
  reflexivity.
Defined.

(** ** Startup and shutdown *)

Lemma emit_all_push (es : list event) (st : state) :
  emit_all es st = (Ok tt, push es st).
Proof.
  revert st; induction es as [|e es IH]; intros st.
  - unfold push. simpl. rewrite app_nil_r. now destruct st.
  - simpl. unfold bind, emit. rewrite IH. unfold push; simpl.
    now rewrite <- app_assoc.
Qed.

Lemma py_eq_int_2 (v : json) : py_eq_int v 2 = true <-> v = JInt 2.
Proof.
  destruct v as [| b | n | s | l | kvs]; simpl;
    try (split; discriminate).
  - destruct b; split; discriminate.
  - rewrite Z.eqb_eq. split; [now intros -> | now intros [= ->]].
Qed.

Lemma assert_sync_change_ok (init_response : json) :
  assert_sync_change init_response = Ok tt <->
  sync_change init_response = Some (JInt 2).
Proof.
  unfold assert_sync_change, sync_change, getitem.
  destruct init_response as [| b | n | s | l | r]; simpl;
    try (split; discriminate).
  destruct (dict_get "capabilities" r) as [caps|]; simpl;
    [|split; discriminate].
  destruct caps as [| b | n | s | l | caps]; simpl; try (split; discriminate).
  destruct (dict_get "textDocumentSync" caps) as [sync|]; simpl;
    [|split; discriminate].
  destruct sync as [| b | n | s | l | sync]; simpl; try (split; discriminate).
  destruct (dict_get "change" sync) as [change|]; simpl;
    [|split; discriminate].
  unfold assert. destruct (py_eq_int change 2) eqn:E.
  - apply py_eq_int_2 in E. subst. split; reflexivity.
  - split; [discriminate|]. intros [= ->]. discriminate.
Qed.

Section Startup.

Variable os : OS.
Variable be : backend.
Variable base : base_class.
Variable repository_root_path : string.
Variable initialize_params_json : result json.

(** The paths through [start_server] once the process has started, the
    parameters are built and the initialize request is answered. *)
Lemma start_server_answered {A} (scope : M A) (st : state)
  (initialize_params init_response : json) :
  start_outcome be = Ok tt ->
  _get_initialize_params os initialize_params_json repository_root_path
    = Ok initialize_params ->
  respond be "initialize" initialize_params = Ok init_response ->
  start_server os be base repository_root_path initialize_params_json
    scope st =
  let st1 := handshaking base initialize_params st in
  match assert_sync_change init_response with
  | Raise e => (Raise e, base_leave base (Some e) st1)
  | Ok _ =>
      match scope (push [SendNotification "initialized" (JDict [])] st1) with
      | (Raise e, st3) => (Raise e, base_leave base (Some e) st3)
      | (Ok r, st3) =>
          match shutdown_outcome be with
          | Raise e =>
              (Raise e, base_leave base (Some e) (push [ServerShutdown] st3))
          | Ok _ =>
              match stop_outcome be with
              | Raise e =>
                  (Raise e,
                   base_leave base (Some e)
                     (push [ServerShutdown; ServerStop] st3))
              | Ok _ =>
                  (Ok r,
                   base_leave base None (push [ServerShutdown; ServerStop] st3))
              end
          end
      end
  end.
Proof.
  intros Hstart Hparams Hresp.
  unfold start_server, bind at 1. rewrite emit_all_push.
  unfold with_super_start_server, bind, log, server_start, send_request,
    notify, server_shutdown, server_stop, emit, lift, ret, handshaking,
    base_leave, push, handshake_events.
  simpl. rewrite Hstart, Hparams. simpl. rewrite Hresp. simpl.
  repeat rewrite <- app_assoc. simpl.
  destruct (assert_sync_change init_response) as [[]|e]; simpl; [|reflexivity].
  match goal with |- context [scope ?s] => destruct (scope s) as [[r|e] st3] end;
    simpl; [|reflexivity].
  destruct (shutdown_outcome be) as [[]|e]; simpl; [|reflexivity].
  destruct (stop_outcome be) as [[]|e]; simpl;
    repeat rewrite <- app_assoc; reflexivity.
Qed.

(** C5. When the initialize response arrives and its
    [capabilities.textDocumentSync.change] field is absent or is not 2,
    [start_server] raises; the trace then ends with the initialize request,
    so the [initialized] notification has not been sent, and the caller's
    scope has not been entered. *)
Theorem start_server_rejects_sync_mode {A} (scope : M A) (st : state)
  (initialize_params init_response : json) :
  start_outcome be = Ok tt ->
  _get_initialize_params os initialize_params_json repository_root_path
    = Ok initialize_params ->
  respond be "initialize" initialize_params = Ok init_response ->
  sync_change init_response <> Some (JInt 2) ->
  exists e,
    start_server os be base repository_root_path initialize_params_json
    scope st
      = (Raise e,
         base_leave base (Some e) (handshaking base initialize_params st)) /\
    ~ In (SendNotification "initialized" (JDict []))
         (register_handlers ++ handshake_events initialize_params).
Proof.
  intros Hstart Hparams Hresp Hsync.
  rewrite (start_server_answered scope st _ _ Hstart Hparams Hresp).
  destruct (assert_sync_change init_response) as [[]|e] eqn:E.
  - apply assert_sync_change_ok in E. contradiction.
  - exists e. split; [reflexivity|].
    simpl. intros H. repeat (destruct H as [H|H]; [discriminate H|]).
    exact H.
Qed.

End Startup.

Lemma start_server_rejects_sync_mode_witness :
  exists e,
    start_server demo_os full_sync_backend demo_base "/repo" (Ok demo_template)
      (request_workspace_symbols full_sync_backend "Foo") fresh_state
      = (Raise e,
         base_leave demo_base (Some e)
           (handshaking demo_base demo_initialize_params fresh_state)) /\
    ~ In (SendNotification "initialized" (JDict []))
         (register_handlers ++ handshake_events demo_initialize_params).
Proof.
  apply (start_server_rejects_sync_mode demo_os full_sync_backend demo_base
           "/repo" (Ok demo_template)
           (request_workspace_symbols full_sync_backend "Foo") fresh_state
           demo_initialize_params
           (JDict [("capabilities",
                    JDict [("textDocumentSync", JDict [("change", JInt 1)])])])).
  - reflexivity.
  - reflexivity.
  - reflexivity.
  - discriminate.
Defined.

(** ** Computations that only add to the trace *)

Lemma appends_ret {A} (a : A) : appends (ret a).
Proof. intros st. exists []. simpl. now rewrite app_nil_r. Qed.

Lemma appends_raise {A} (e : exn) : appends (@raise A e).
Proof. intros st. exists []. simpl. now rewrite app_nil_r. Qed.

Lemma appends_lift {A} (r : result A) : appends (lift r).
Proof. intros st. exists []. simpl. now rewrite app_nil_r. Qed.

Lemma appends_emit (e : event) : appends (emit e).
Proof. intros st. now exists [e]. Qed.

Lemma appends_bind {A B} (m : M A) (f : A -> M B) :
  appends m -> (forall a, appends (f a)) -> appends (bind m f).
Proof.
  intros Hm Hf st. unfold bind.
  destruct (Hm st) as [es Hes].
  destruct (m st) as [[a|e] st1]; simpl in *.
  - destruct (Hf a st1) as [es' Hes'].
    exists (es ++ es'). now rewrite Hes', Hes, app_assoc.
  - now exists es.
Qed.

Lemma appends_request_workspace_symbols (be : backend) (q : string) :
  appends (request_workspace_symbols be q).
Proof.
  unfold request_workspace_symbols, get_self, log, send_request.
  intros st. unfold bind at 1.
  destruct (negb (server_started (self st))).
  - apply appends_bind; [apply appends_emit | intros; apply appends_raise].
  - apply appends_bind;
      [apply appends_bind; [apply appends_emit | intros; apply appends_lift]
      | intros; apply appends_lift].
Qed.

Lemma prefix_before {A} (hs rest pre post : list A) (x : A) :
  ~ In x hs ->
  hs ++ rest = pre ++ x :: post ->
  exists mid, pre = hs ++ mid.
Proof.
  revert pre; induction hs as [|h hs IH]; intros pre Hx Heq.
  - now exists pre.
  - destruct pre as [|p pre]; simpl in Heq.
    + injection Heq as -> _. exfalso. apply Hx. now left.
    + injection Heq as -> Heq.
      destruct (IH pre) as [mid ->]; trivial.
      * intros H. apply Hx. now right.
      * now exists mid.
Qed.

Section StartupOrder.

Variable os : OS.
Variable be : backend.
Variable base : base_class.
Variable repository_root_path : string.
Variable initialize_params_json : result json.

(** Every execution starts by registering the seven handlers. *)
Lemma start_server_registers_first {A} (scope : M A) (st : state) :
  appends scope ->
  exists rest,
    trace (snd (start_server os be base repository_root_path
                  initialize_params_json scope st))
      = trace st ++ register_handlers ++ rest.
Proof.
  intros Hscope.
  unfold start_server, bind at 1. rewrite emit_all_push.
  unfold with_super_start_server.
  match goal with
  | |- context [let (r, st2) := ?body ?s in _] =>
      assert (Hb : appends body); [|destruct (Hb s) as [es Hes];
                                    destruct (body s) as [r st2]]
  end.
  - unfold log, server_start, send_request, notify, server_shutdown,
      server_stop.
    repeat first
      [ apply appends_emit | apply appends_lift | apply appends_ret
      | exact Hscope
      | apply appends_bind; [|intros ?] ].
  - exists es. simpl in *. rewrite Hes. unfold push; simpl.
    now rewrite <- app_assoc.
Qed.

(** C8. In every execution of [start_server], whatever precedes an
    initialize request in what the execution adds to the trace starts with
    the registration of the seven server-push handlers: the two request
    handlers and the five notification handlers are attached before the
    initialize request is dispatched. *)
Theorem handlers_registered_before_initialize {A} (scope : M A) (st : state)
  (pre post : list event) (initialize_params : json) :
  appends scope ->
  trace (snd (start_server os be base repository_root_path
                initialize_params_json scope st))
    = trace st ++ pre ++ SendRequest "initialize" initialize_params :: post ->
  exists mid,
    pre =
      [ OnRequest "client/registerCapability" register_capability_handler;
        OnNotification "language/status" lang_status_handler;
        OnNotification "window/logMessage" window_log_message;
        OnRequest "workspace/executeClientCommand" execute_client_command_handler;
        OnNotification "$/progress" do_nothing;
        OnNotification "textDocument/publishDiagnostics" do_nothing;
        OnNotification "language/actionableNotification" do_nothing ]
      ++ mid.
Proof.
  intros Hscope Htrace.
  destruct (start_server_registers_first scope st Hscope) as [rest Hrest].
  rewrite Hrest in Htrace. apply app_inv_head in Htrace.
  apply (prefix_before register_handlers rest pre post
           (SendRequest "initialize" initialize_params)); trivial.
  simpl. intros H. repeat (destruct H as [H|H]; [discriminate H|]). exact H.
Qed.

End StartupOrder.

Lemma handlers_registered_before_initialize_witness :
  exists mid,
    register_handlers
      ++ [ Log "Starting XcodeBuildServer server process" None INFO;
           ProcessStart;
           Log "Sending initialize request from LSP client to LSP server and awaiting response"
             None INFO ]
    =
      [ OnRequest "client/registerCapability" register_capability_handler;
        OnNotification "language/status" lang_status_handler;
        OnNotification "window/logMessage" window_log_message;
        OnRequest "workspace/executeClientCommand" execute_client_command_handler;
        OnNotification "$/progress" do_nothing;
        OnNotification "textDocument/publishDiagnostics" do_nothing;
        OnNotification "language/actionableNotification" do_nothing ]
      ++ mid.
Proof.
  apply (handlers_registered_before_initialize demo_os demo_backend demo_base
           "/repo" (Ok demo_template)
           (request_workspace_symbols demo_backend "Foo") fresh_state
           (register_handlers
              ++ [ Log "Starting XcodeBuildServer server process" None INFO;
                   ProcessStart;
                   Log "Sending initialize request from LSP client to LSP server and awaiting response"
                     None INFO ])
           [ SendNotification "initialized" (JDict []);
             SendRequest "workspace/symbol" (JDict [("query", JStr "Foo")]);
             ServerShutdown;
             ServerStop ]
           demo_initialize_params).
  - apply appends_request_workspace_symbols.
  - reflexivity.
Defined.

(** ** Leaving the scope of [start_server] *)

(** When the caller's scope returns, the shutdown request is sent and then
    the process is stopped. *)
Lemma start_server_scope_returns
  (os : OS) (be : backend) (base : base_class) (root : string)
  (tpl : result json) {A} (scope : M A) (st st3 : state)
  (initialize_params init_response : json) (r : A) :
  start_outcome be = Ok tt ->
  _get_initialize_params os tpl root = Ok initialize_params ->
  respond be "initialize" initialize_params = Ok init_response ->
  sync_change init_response = Some (JInt 2) ->
  scope (push [SendNotification "initialized" (JDict [])]
           (handshaking base initialize_params st)) = (Ok r, st3) ->
  exists es,
    trace (snd (start_server os be base root tpl scope st))
      = trace st3 ++ ServerShutdown :: es /\
    (es = [] \/ es = [ServerStop]).
Proof.
  intros Hstart Hparams Hresp Hsync Hscope.
  rewrite (start_server_answered os be base root tpl scope st _ _
             Hstart Hparams Hresp).
  apply assert_sync_change_ok in Hsync. rewrite Hsync. simpl.
  rewrite Hscope.
  destruct (shutdown_outcome be) as [[]|e]; simpl.
  - exists [ServerStop]. split; [|now right].
    destruct (stop_outcome be) as [[]|e]; reflexivity.
  - exists []. split; [reflexivity | now left].
Qed.

(** C9, on the code.  A scope whose rename query raises leaves
    [start_server] by that exception: the trace ends with the close signal
    of the query, and neither the shutdown request nor the stop of the
    process follows. *)
Theorem start_server_scope_failure_skips_shutdown :
  start_server demo_os failing_backend demo_base "/repo" (Ok demo_template)
    (request_rename demo_os failing_backend "/repo" demo_params demo_params
       "a.swift" 3 4 "foo")
    fresh_state
  = (Raise (BackendError "request failed"),
     {| self := {| server_started := false;
                   completions_available := false;
                   service_ready_event := false |};
        trace :=
          register_handlers
          ++ handshake_events demo_initialize_params
          ++ [ SendNotification "initialized" (JDict []);
               SendNotification "textDocument/didOpen" (demo_params "a.swift");
               SendRequest "textDocument/rename"
                 (rename_params "file:///repo/a.swift" 3 4 "foo");
               SendNotification "textDocument/didClose" (demo_params "a.swift") ]
     |}) /\
  ~ In ServerShutdown
      (trace (snd (start_server demo_os failing_backend demo_base "/repo"
                     (Ok demo_template)
                     (request_rename demo_os failing_backend "/repo"
                        demo_params demo_params "a.swift" 3 4 "foo")
                     fresh_state))) /\
  ~ In ServerStop
      (trace (snd (start_server demo_os failing_backend demo_base "/repo"
                     (Ok demo_template)
                     (request_rename demo_os failing_backend "/repo"
                        demo_params demo_params "a.swift" 3 4 "foo")
                     fresh_state))).
Proof.
  split; [reflexivity|].
  split; vm_compute; intros H;
    repeat (destruct H as [H|H]; [discriminate H|]); exact H.
Qed.

(** ** The initialize parameters *)

Lemma dict_keys_set_mem {V} (k : string) (v : V) (d : dict V) :
  dict_mem k d = true -> dict_keys (dict_set k v d) = dict_keys d.
Proof.
  intros H. apply dict_keys_set.
  unfold dict_mem in H. destruct (dict_get k d) eqn:E; [|discriminate].
  destruct (in_dec string_dec k (dict_keys d)) as [Hin|Hin]; trivial.
  apply dict_get_none in Hin. congruence.
Qed.

Lemma dict_mem_set {V} (k k' : string) (v : V) (d : dict V) :
  dict_mem k (dict_set k' v d) = String.eqb k k' || dict_mem k d.
Proof.
  unfold dict_mem. rewrite dict_get_set.
  destruct (String.eqb k k'); reflexivity.
Qed.

Lemma holds_marker_mem (kvs : dict json) (k marker : string) :
  holds_marker kvs k marker = true -> dict_mem k kvs = true.
Proof.
  unfold holds_marker, dict_mem. destruct (dict_get k kvs); [reflexivity | discriminate].
Qed.

Lemma py_eq_str_eq (v : json) (s : string) :
  py_eq_str v s = true <-> v = JStr s.
Proof.
  destruct v as [| b | n | s' | l | kvs]; simpl; try (split; discriminate).
  rewrite String.eqb_eq. split; [now intros -> | now intros [= ->]].
Qed.

Section InitializeParams.

Variable os : OS.

(** The run of the method on a dict template: the four checks in order,
    then the substituted template. *)
Lemma get_initialize_params_dict (kvs : dict json) (p : string) :
  _get_initialize_params os (Ok (JDict kvs)) p =
  match dict_get "processId" kvs with
  | None => Raise (KeyError "processId")
  | Some v1 =>
    if negb (py_eq_str v1 processId_marker) then Raise AssertionError else
    match dict_get "rootPath" kvs with
    | None => Raise (KeyError "rootPath")
    | Some v2 =>
      if negb (py_eq_str v2 rootPath_marker) then Raise AssertionError else
      match dict_get "rootUri" kvs with
      | None => Raise (KeyError "rootUri")
      | Some v3 =>
        if negb (py_eq_str v3 rootUri_marker) then Raise AssertionError else
        if negb (isabs (absolute_path os p)) then Raise ValueError else
        match dict_get "workspaceFolders" kvs with
        | None => Raise (KeyError "workspaceFolders")
        | Some v4 =>
          if negb (py_eq_str v4 workspaceFolders_marker)
          then Raise AssertionError
          else Ok (JDict (substituted os kvs (absolute_path os p)))
        end
      end
    end
  end.
Proof.
  unfold _get_initialize_params, substituted, absolute_path, as_uri.
  cbn [rbind getitem setitem].
  destruct (dict_get "processId" kvs) as [v1|]; [|reflexivity].
  cbn [rbind assert].
  destruct (py_eq_str v1 processId_marker); [|reflexivity].
  cbn [rbind negb getitem setitem]. rewrite dict_get_set.
  change (String.eqb "rootPath" "processId") with false. cbv iota.
  destruct (dict_get "rootPath" kvs) as [v2|]; [|reflexivity].
  cbn [rbind assert].
  destruct (py_eq_str v2 rootPath_marker); [|reflexivity].
  cbn [rbind negb getitem setitem]. rewrite !dict_get_set.
  change (String.eqb "rootUri" "rootPath") with false.
  change (String.eqb "rootUri" "processId") with false. cbv iota.
  destruct (dict_get "rootUri" kvs) as [v3|]; [|reflexivity].
  cbn [rbind assert].
  destruct (py_eq_str v3 rootUri_marker); [|reflexivity].
  cbn [rbind negb].
  destruct (isabs (if negb (isabs p) then abspath os p else p));
    [|reflexivity].
  cbn [rbind negb getitem setitem]. rewrite !dict_get_set.
  change (String.eqb "workspaceFolders" "rootUri") with false.
  change (String.eqb "workspaceFolders" "rootPath") with false.
  change (String.eqb "workspaceFolders" "processId") with false. cbv iota.
  destruct (dict_get "workspaceFolders" kvs) as [v4|]; [|reflexivity].
  cbn [rbind assert].
  destruct (py_eq_str v4 workspaceFolders_marker); reflexivity.
Qed.

Lemma substituted_keys (kvs : dict json) (path : string) :
  has_placeholders (JDict kvs) = true ->
  dict_keys (substituted os kvs path) = dict_keys kvs.
Proof.
  simpl. intros H.
  apply andb_true_iff in H as [H H4]. apply andb_true_iff in H as [H H3].
  apply andb_true_iff in H as [H1 H2].
  unfold substituted.
  rewrite !dict_keys_set_mem; trivial;
    rewrite ?dict_mem_set, ?H1, ?H2, ?H3, ?H4, ?orb_true_r; reflexivity.
Qed.

Lemma markers_have_placeholders (d : json) :
  markers_match d = true -> has_placeholders d = true.
Proof.
  destruct d as [| b | n | s | l | kvs]; simpl; try discriminate.
  intros H.
  apply andb_true_iff in H as [H H4]. apply andb_true_iff in H as [H H3].
  apply andb_true_iff in H as [H1 H2].
  now rewrite (holds_marker_mem _ _ _ H1), (holds_marker_mem _ _ _ H2),
    (holds_marker_mem _ _ _ H3), (holds_marker_mem _ _ _ H4).
Qed.

(** C3. On a loaded template [d], with [path] the absolute repository path:
    if each of the four placeholder fields holds its literal marker, the
    method returns the template with [processId], [rootPath], [rootUri] and
    [workspaceFolders] set to the process id, [path], the file URI of
    [path] and the one-folder list (that URI, the basename of [path]),
    every other field and the order of the fields unchanged; if any marker
    differs the method fails, with an assertion error when the four fields
    are present. *)
Theorem get_initialize_params_checks_then_substitutes (d : json) (p : string) :
  isabs (absolute_path os p) = true ->
  (markers_match d = true ->
   exists kvs ret,
     d = JDict kvs /\
     _get_initialize_params os (Ok d) p = Ok (JDict ret) /\
     dict_keys ret = dict_keys kvs /\
     dict_get "processId" ret = Some (JInt (getpid os)) /\
     dict_get "rootPath" ret = Some (JStr (absolute_path os p)) /\
     dict_get "rootUri" ret = Some (JStr (file_uri os (absolute_path os p))) /\
     dict_get "workspaceFolders" ret
       = Some (JList [JDict [("uri", JStr (file_uri os (absolute_path os p)));
                             ("name", JStr (basename (absolute_path os p)))]]) /\
     forall k,
       k <> "processId" -> k <> "rootPath" -> k <> "rootUri" ->
       k <> "workspaceFolders" ->
       dict_get k ret = dict_get k kvs) /\
  (markers_match d = false ->
   exists e, _get_initialize_params os (Ok d) p = Raise e) /\
  (markers_match d = false -> has_placeholders d = true ->
   _get_initialize_params os (Ok d) p = Raise AssertionError).
Proof.
  intros Habs. refine (conj _ (conj _ _)).
  - intros Hm. pose proof (markers_have_placeholders d Hm) as Hp.
    destruct d as [| b | n | s | l | kvs]; try discriminate.
    exists kvs, (substituted os kvs (absolute_path os p)).
    split; [reflexivity|]. split.
    + rewrite get_initialize_params_dict. simpl in Hm. unfold holds_marker in Hm.
      apply andb_true_iff in Hm as [Hm H4]. apply andb_true_iff in Hm as [Hm H3].
      apply andb_true_iff in Hm as [H1 H2].
      destruct (dict_get "processId" kvs); [|discriminate]. rewrite H1.
      destruct (dict_get "rootPath" kvs); [|discriminate]. rewrite H2.
      destruct (dict_get "rootUri" kvs); [|discriminate]. rewrite H3.
      destruct (dict_get "workspaceFolders" kvs); [|discriminate].
      now rewrite H4, Habs.
    + split; [now apply substituted_keys|].
      unfold substituted, workspace_folders.
      repeat split; try (rewrite !dict_get_set; reflexivity).
      intros k Hk1 Hk2 Hk3 Hk4. rewrite !dict_get_set.
      apply String.eqb_neq in Hk1, Hk2, Hk3, Hk4.
      now rewrite Hk1, Hk2, Hk3, Hk4.
  - intros Hm.
    destruct d as [| b | n | s | l | kvs];
      try (eexists; reflexivity).
    rewrite get_initialize_params_dict, Habs. simpl in Hm.
    unfold holds_marker in Hm.
    destruct (dict_get "processId" kvs) as [v1|]; [|eexists; reflexivity].
    destruct (py_eq_str v1 processId_marker); [|eexists; reflexivity].
    destruct (dict_get "rootPath" kvs) as [v2|]; [|eexists; reflexivity].
    destruct (py_eq_str v2 rootPath_marker); [|eexists; reflexivity].
    destruct (dict_get "rootUri" kvs) as [v3|]; [|eexists; reflexivity].
    destruct (py_eq_str v3 rootUri_marker); [|eexists; reflexivity].
    destruct (dict_get "workspaceFolders" kvs) as [v4|]; [|eexists; reflexivity].
    destruct (py_eq_str v4 workspaceFolders_marker);
      [discriminate | eexists; reflexivity].
  - intros Hm Hp.
    destruct d as [| b | n | s | l | kvs]; try discriminate.
    rewrite get_initialize_params_dict, Habs. simpl in Hm, Hp.
    unfold holds_marker in Hm. unfold dict_mem in Hp.
    destruct (dict_get "processId" kvs) as [v1|]; [|discriminate].
    destruct (py_eq_str v1 processId_marker); [|reflexivity].
    destruct (dict_get "rootPath" kvs) as [v2|]; [|discriminate].
    destruct (py_eq_str v2 rootPath_marker); [|reflexivity].
    destruct (dict_get "rootUri" kvs) as [v3|]; [|discriminate].
    destruct (py_eq_str v3 rootUri_marker); [|reflexivity].
    destruct (dict_get "workspaceFolders" kvs) as [v4|]; [|discriminate].
    destruct (py_eq_str v4 workspaceFolders_marker); [discriminate|reflexivity].
Qed.

End InitializeParams.

Lemma get_initialize_params_checks_then_substitutes_witness :
  exists kvs ret,
    demo_template = JDict kvs /\
    _get_initialize_params demo_os (Ok demo_template) "repo" = Ok (JDict ret) /\
    dict_keys ret = dict_keys kvs /\
    dict_get "processId" ret = Some (JInt (getpid demo_os)) /\
    dict_get "rootPath" ret = Some (JStr (absolute_path demo_os "repo")) /\
    dict_get "rootUri" ret
      = Some (JStr (file_uri demo_os (absolute_path demo_os "repo"))) /\
    dict_get "workspaceFolders" ret
      = Some (JList [JDict [("uri", JStr (file_uri demo_os
                                            (absolute_path demo_os "repo")));
                            ("name", JStr (basename
                                             (absolute_path demo_os "repo")))]]) /\
    forall k,
      k <> "processId" -> k <> "rootPath" -> k <> "rootUri" ->
      k <> "workspaceFolders" ->
      dict_get k ret = dict_get k kvs.
Proof.
  apply (get_initialize_params_checks_then_substitutes demo_os demo_template
           "repo" eq_refl).
  reflexivity.
Defined.

(** ** The [client/registerCapability] handler *)

Lemma register_one_other (r : json) (st : state) :
  other_method r = true -> register_one r st = (Ok tt, st).
Proof.
  destruct r as [| b | n | s | l | fields]; simpl; try discriminate.
  unfold register_one, bind, lift, getitem.
  destruct (dict_get "method" fields) as [m|]; [|discriminate].
  intros H. apply negb_true_iff in H. now rewrite H.
Qed.

Lemma register_one_matching (r : json) (st : state) :
  matching_completion r = true ->
  register_one r st = (Ok tt, with_completions st).
Proof.
  unfold matching_completion, options_match, register_option.
  destruct r as [| b | n | s | l | fields]; simpl; try discriminate.
  unfold register_one, bind, lift, getitem.
  destruct (dict_get "method" fields) as [m|]; [|discriminate].
  destruct (py_eq_str m "textDocument/completion"); [|discriminate].
  destruct (dict_get "registerOptions" fields) as [opts|]; [|discriminate].
  destruct opts as [| b | n | s | l | opts]; try discriminate.
  destruct (dict_get "resolveProvider" opts) as [rp|]; [|discriminate].
  destruct (dict_get "triggerCharacters" opts) as [tc|]; [|discriminate].
  simpl. intros H. apply andb_true_iff in H as [-> ->]. reflexivity.
Qed.

Lemma register_one_mismatch (r rp tc : json) (st : state) :
  is_completion r = true ->
  register_option r "resolveProvider" = Some rp ->
  register_option r "triggerCharacters" = Some tc ->
  py_eq_True rp && py_eq_strlist tc completion_triggers = false ->
  register_one r st = (Raise AssertionError, st).
Proof.
  unfold register_option.
  destruct r as [| b | n | s | l | fields]; simpl; try discriminate.
  unfold register_one, bind, lift, getitem.
  destruct (dict_get "method" fields) as [m|]; [|discriminate].
  intros ->.
  destruct (dict_get "registerOptions" fields) as [opts|]; [|discriminate].
  destruct opts as [| b | n | s | l | opts]; try discriminate.
  intros -> ->. simpl.
  destruct (py_eq_True rp); simpl; [|reflexivity].
  intros ->. reflexivity.
Qed.

(** The event is set by a registration only if it is a completion
    registration with the expected options. *)
Lemma register_one_sets (r : json) (st : state) :
  completions_available (self (snd (register_one r st))) = true ->
  completions_available (self st) = true \/ matching_completion r = true.
Proof.
  unfold matching_completion, options_match, register_option, is_completion.
  unfold register_one, bind, lift, getitem.
  destruct r as [| b | n | s | l | fields]; simpl; auto.
  destruct (dict_get "method" fields) as [m|]; simpl; auto.
  destruct (py_eq_str m "textDocument/completion"); simpl; auto.
  destruct (dict_get "registerOptions" fields) as [opts|]; simpl; auto.
  destruct opts as [| b | n | s | l | opts]; simpl; auto.
  destruct (dict_get "resolveProvider" opts) as [rp|]; simpl; auto.
  destruct (py_eq_True rp); simpl; auto.
  destruct (dict_get "triggerCharacters" opts) as [tc|]; simpl; auto.
  destruct (py_eq_strlist tc completion_triggers); simpl; auto.
Qed.

Lemma register_one_trace (r : json) (st : state) :
  trace (snd (register_one r st)) = trace st.
Proof.
  unfold register_one, bind, lift, getitem.
  destruct r as [| b | n | s | l | fields]; simpl; auto.
  destruct (dict_get "method" fields) as [m|]; simpl; auto.
  destruct (py_eq_str m "textDocument/completion"); simpl; auto.
  destruct (dict_get "registerOptions" fields) as [opts|]; simpl; auto.
  destruct opts as [| b | n | s | l | opts]; simpl; auto.
  destruct (dict_get "resolveProvider" opts) as [rp|]; simpl; auto.
  destruct (py_eq_True rp); simpl; auto.
  destruct (dict_get "triggerCharacters" opts) as [tc|]; simpl; auto.
  destruct (py_eq_strlist tc completion_triggers); simpl; auto.
Qed.

Lemma py_eq_True_iff (v : json) :
  py_eq_True v = true <-> v = JBool true \/ v = JInt 1.
Proof.
  unfold py_eq_True.
  destruct v as [| b | n | s | l | kvs]; simpl;
    try (split; [discriminate | intros [H|H]; discriminate H]).
  - destruct b; split; auto; try discriminate.
    intros [H|H]; discriminate H.
  - rewrite Z.eqb_eq. split.
    + intros ->. now right.
    + intros [H|H]; [discriminate H | now injection H].
Qed.

Lemma py_eq_strs_iff (l : list json) (ss : list string) :
  py_eq_strs l ss = true <-> l = map JStr ss.
Proof.
  revert ss; induction l as [|x l IH]; intros [|s ss]; simpl;
    try (split; [reflexivity || discriminate | reflexivity || discriminate]).
  rewrite andb_true_iff, py_eq_str_eq, IH. split.
  - now intros [-> ->].
  - intros [= -> ->]. now split.
Qed.

Lemma py_eq_strlist_iff (v : json) (ss : list string) :
  py_eq_strlist v ss = true <-> v = JList (map JStr ss).
Proof.
  destruct v as [| b | n | s | l | kvs]; simpl; try (split; discriminate).
  rewrite py_eq_strs_iff. split; [now intros -> | now intros [= ->]].
Qed.

Lemma with_completions_idem (st : state) :
  with_completions (with_completions st) = with_completions st.
Proof. reflexivity. Qed.

Lemma other_not_matching (r : json) :
  other_method r = true -> matching_completion r = false.
Proof.
  unfold matching_completion, is_completion.
  destruct r as [| b | n | s | l | fields]; simpl; try discriminate.
  destruct (dict_get "method" fields) as [m|]; [|discriminate].
  intros H. apply negb_true_iff in H. now rewrite H.
Qed.

Lemma register_all_accepted (regs : list json) (st : state) :
  forallb accepted regs = true ->
  register_all regs st = (Ok tt, after_accepted regs st).
Proof.
  unfold after_accepted.
  revert st; induction regs as [|r regs IH]; intros st; simpl.
  - reflexivity.
  - intros H. apply andb_true_iff in H as [Hr Hrest].
    unfold bind. unfold accepted in Hr.
    destruct (matching_completion r) eqn:Hm.
    + rewrite (register_one_matching r st Hm), (IH _ Hrest). simpl.
      now destruct (existsb matching_completion regs).
    + rewrite orb_false_r in Hr.
      rewrite (register_one_other r st Hr), (IH _ Hrest). reflexivity.
Qed.

Lemma register_all_app (pre rest : list json) (st : state) :
  forallb accepted pre = true ->
  register_all (pre ++ rest) st = register_all rest (after_accepted pre st).
Proof.
  unfold after_accepted.
  revert st; induction pre as [|r pre IH]; intros st; simpl.
  - reflexivity.
  - intros H. apply andb_true_iff in H as [Hr Hrest].
    unfold bind. unfold accepted in Hr.
    destruct (matching_completion r) eqn:Hm.
    + rewrite (register_one_matching r st Hm), (IH _ Hrest). simpl.
      now destruct (existsb matching_completion pre).
    + rewrite orb_false_r in Hr.
      rewrite (register_one_other r st Hr), (IH _ Hrest). reflexivity.
Qed.

Lemma register_all_sets (regs : list json) (st : state) :
  completions_available (self (snd (register_all regs st))) = true ->
  completions_available (self st) = true \/
  exists r, In r regs /\ matching_completion r = true.
Proof.
  revert st; induction regs as [|r regs IH]; intros st; simpl.
  - auto.
  - unfold bind. pose proof (register_one_sets r st) as Hone.
    destruct (register_one r st) as [[[]|e] st1]; simpl in *.
    + intros H. apply IH in H as [H|[r' [Hin Hm]]].
      * apply Hone in H as [H|H]; [now left | right; exists r; auto].
      * right. exists r'. auto.
    + intros H. apply Hone in H as [H|H]; [now left | right; exists r; auto].
Qed.

Lemma register_all_trace (regs : list json) (st : state) :
  trace (snd (register_all regs st)) = trace st.
Proof.
  revert st; induction regs as [|r regs IH]; intros st; simpl.
  - reflexivity.
  - unfold bind. pose proof (register_one_trace r st) as Hone.
    destruct (register_one r st) as [[[]|e] st1]; simpl in *.
    + now rewrite IH.
    + exact Hone.
Qed.

(** The handler on params that carry a list of registrations. *)
Lemma run_register_capability_handler_list
  (kvs : dict json) (regs : list json) (st : state) :
  dict_get "registrations" kvs = Some (JList regs) ->
  run_register_capability_handler (JDict kvs) st =
  match register_all regs st with
  | (Ok _, st') => (Ok JNull, st')
  | (Raise e, st') => (Raise e, st')
  end.
Proof.
  intros H.
  unfold run_register_capability_handler, bind, lift, py_in, getitem, dict_mem,
    ret.
  rewrite H. simpl.
  destruct (register_all regs st) as [[[]|e] st']; reflexivity.
Qed.

(** The run of the loop body on a completion registration. *)
Lemma register_one_completion (fields : dict json) (st : state) :
  is_completion (JDict fields) = true ->
  register_one (JDict fields) st =
  match dict_get "registerOptions" fields with
  | None => (Raise (KeyError "registerOptions"), st)
  | Some (JDict opts) =>
      match dict_get "resolveProvider" opts with
      | None => (Raise (KeyError "resolveProvider"), st)
      | Some rp =>
          if py_eq_True rp then
            match dict_get "triggerCharacters" opts with
            | None => (Raise (KeyError "triggerCharacters"), st)
            | Some tc =>
                if py_eq_strlist tc completion_triggers
                then (Ok tt, with_completions st)
                else (Raise AssertionError, st)
            end
          else (Raise AssertionError, st)
      end
  | Some _ => (Raise TypeError, st)
  end.
Proof.
  simpl. unfold register_one, bind, lift, getitem.
  destruct (dict_get "method" fields) as [m|]; [|discriminate].
  intros ->.
  destruct (dict_get "registerOptions" fields) as [opts|]; [|reflexivity].
  destruct opts as [| b | n | s | l | opts]; try reflexivity.
  destruct (dict_get "resolveProvider" opts) as [rp|]; [|reflexivity].
  simpl. destruct (py_eq_True rp); simpl; [|reflexivity].
  destruct (dict_get "triggerCharacters" opts) as [tc|]; [|reflexivity].
  simpl. destruct (py_eq_strlist tc completion_triggers); reflexivity.
Qed.

(** C10, amended. On params that carry a list of registrations, the
    [client/registerCapability] handler
    - raises an assertion error, and does not return, at a completion
      registration whose [registerOptions] carry both fields without
      [resolveProvider] being true or the number 1 ([1 == True] in Python)
      and [triggerCharacters] being exactly [[".", "@", "#", "*", " "]],
      the registrations before it having passed;
    - leaves [completions_available] set only if it was set before or a
      completion registration with these options is among the
      registrations;
    - returns, with the event set exactly when such a registration is
      present, if every registration is for another method or is such a
      completion registration;
    - returns without any effect if all registrations are for other
      methods;
    - at a completion registration, the registrations before it having
      passed, raises a key error when [registerOptions] is missing, a type
      error when it is not a dict, a key error when [resolveProvider] is
      missing, the assertion error when [resolveProvider] is neither true
      nor 1 (whether or not [triggerCharacters] is there), and a key error
      when [resolveProvider] passes and [triggerCharacters] is missing. *)
Theorem register_capability_handler_asserts_completion_options
  (kvs : dict json) (regs : list json) (st : state) :
  dict_get "registrations" kvs = Some (JList regs) ->
  (forall pre r post rp tc,
     regs = pre ++ r :: post ->
     forallb accepted pre = true ->
     is_completion r = true ->
     register_option r "resolveProvider" = Some rp ->
     register_option r "triggerCharacters" = Some tc ->
     (rp <> JBool true /\ rp <> JInt 1) \/
       tc <> JList [JStr "."; JStr "@"; JStr "#"; JStr "*"; JStr " "] ->
     fst (run_handler register_capability_handler (JDict kvs) st)
       = Raise AssertionError) /\
  (completions_available
     (self (snd (run_handler register_capability_handler (JDict kvs) st)))
     = true ->
   completions_available (self st) = true \/
   exists r, In r regs /\ matching_completion r = true) /\
  (forallb accepted regs = true ->
   run_handler register_capability_handler (JDict kvs) st
     = (Ok JNull,
        if existsb matching_completion regs then with_completions st else st)) /\
  (forallb other_method regs = true ->
   run_handler register_capability_handler (JDict kvs) st = (Ok JNull, st)) /\
  (forall pre fields post,
     regs = pre ++ JDict fields :: post ->
     forallb accepted pre = true ->
     is_completion (JDict fields) = true ->
     (dict_get "registerOptions" fields = None ->
      fst (run_handler register_capability_handler (JDict kvs) st)
        = Raise (KeyError "registerOptions")) /\
     (forall v,
        dict_get "registerOptions" fields = Some v ->
        isinstance_dict v = false ->
        fst (run_handler register_capability_handler (JDict kvs) st)
          = Raise TypeError) /\
     (forall opts,
        dict_get "registerOptions" fields = Some (JDict opts) ->
        (dict_get "resolveProvider" opts = None ->
         fst (run_handler register_capability_handler (JDict kvs) st)
           = Raise (KeyError "resolveProvider")) /\
        (forall rp,
           dict_get "resolveProvider" opts = Some rp ->
           rp <> JBool true -> rp <> JInt 1 ->
           fst (run_handler register_capability_handler (JDict kvs) st)
             = Raise AssertionError) /\
        (forall rp,
           dict_get "resolveProvider" opts = Some rp ->
           rp = JBool true \/ rp = JInt 1 ->
           dict_get "triggerCharacters" opts = None ->
           fst (run_handler register_capability_handler (JDict kvs) st)
             = Raise (KeyError "triggerCharacters")))).
Proof.
  intros Hregs. simpl.
  rewrite (run_register_capability_handler_list kvs regs st Hregs).
  refine (conj _ (conj _ (conj _ (conj _ _)))).
  - intros pre r post rp tc -> Hpre Hc Hrp Htc Hdiff.
    rewrite (register_all_app pre (r :: post) st Hpre). simpl. unfold bind.
    rewrite (register_one_mismatch r rp tc _ Hc Hrp Htc); [reflexivity|].
    apply andb_false_iff. destruct Hdiff as [[H1 H2]|H].
    + left. destruct (py_eq_True rp) eqn:E; trivial.
      apply py_eq_True_iff in E as [E|E]; contradiction.
    + right. destruct (py_eq_strlist tc completion_triggers) eqn:E; trivial.
      apply py_eq_strlist_iff in E. contradiction.
  - intros H. apply (register_all_sets regs st).
    destruct (register_all regs st) as [[[]|e] st']; exact H.
  - intros H. now rewrite (register_all_accepted regs st H).
  - intros H.
    assert (Ha : forallb accepted regs = true).
    { clear Hregs. induction regs as [|r regs IH]; simpl in *; trivial.
      apply andb_true_iff in H as [H1 H2]. rewrite (IH H2).
      unfold accepted. now rewrite H1. }
    assert (Hn : existsb matching_completion regs = false).
    { clear Hregs Ha. induction regs as [|r regs IH]; simpl in *; trivial.
      apply andb_true_iff in H as [H1 H2].
      now rewrite (other_not_matching r H1), IH. }
    rewrite (register_all_accepted regs st Ha). unfold after_accepted.
    now rewrite Hn.
  - intros pre fields post -> Hpre Hc.
    rewrite (register_all_app pre (JDict fields :: post) st Hpre).
    simpl register_all. unfold bind.
    rewrite (register_one_completion fields _ Hc).
    refine (conj _ (conj _ _)).
    + intros ->. reflexivity.
    + intros v -> Hv. destruct v; try reflexivity. discriminate Hv.
    + intros opts ->. refine (conj _ (conj _ _)).
      * intros ->. reflexivity.
      * intros rp -> H1 H2.
        destruct (py_eq_True rp) eqn:E; [|reflexivity].
        apply py_eq_True_iff in E as [E|E]; contradiction.
      * intros rp -> Hrp ->.
        apply py_eq_True_iff in Hrp. now rewrite Hrp.
Qed.

Lemma register_capability_handler_asserts_completion_options_witness :
  fst (run_handler register_capability_handler
         (JDict [("registrations", JList demo_registrations)]) fresh_state)
    = Raise AssertionError.
Proof.
  apply (proj1 (register_capability_handler_asserts_completion_options
                  [("registrations", JList demo_registrations)]
                  demo_registrations fresh_state eq_refl))
    with (pre := [ JDict [("id", JStr "sync-1");
                          ("method", JStr "textDocument/didChange")];
                   completion_registration (JBool true) expected_triggers ])
         (r := completion_registration (JBool true) (JList [JStr "."]))
         (post := [])
         (rp := JBool true)
         (tc := JList [JStr "."]).
  - reflexivity.
  - reflexivity.
  - reflexivity.
  - reflexivity.
  - reflexivity.
  - right. discriminate.
Defined.

(** C10, as stated, fails at two completion registrations whose options
    differ from the expected ones: with [resolveProvider] the number 1 the
    handler returns and sets the event ([1 == True] holds in Python), and
    with no [resolveProvider] at all it raises a key error, not an assertion
    error. *)
Lemma completion_options_counterexample :
  run_handler register_capability_handler
    (JDict [("registrations",
             JList [completion_registration (JInt 1) expected_triggers])])
    fresh_state
  = (Ok JNull, with_completions fresh_state) /\
  fst (run_handler register_capability_handler
         (JDict [("registrations",
                  JList [JDict [("method", JStr "textDocument/completion");
                                ("registerOptions",
                                 JDict [("triggerCharacters",
                                         expected_triggers)])]])])
         fresh_state)
  = Raise (KeyError "resolveProvider").
Proof. split; reflexivity. Qed.

(** * Further properties of the code *)

(** ** The [language/status] handler (lines 130-135) *)

(** X1. The [language/status] handler sets [service_ready_event] exactly
    when both [type] and [message] of the params are ["ServiceReady"], and
    leaves it as it was otherwise; it returns [None] exactly when it can
    read the params (a dict with a [type], and with a [message] if the type
    is ["ServiceReady"]: the message is not looked at for another type); it
    never touches the trace or the other attributes. *)
Theorem lang_status_handler_sets_ready (params : json) (st : state) :
  service_ready_event (self (snd (run_handler lang_status_handler params st)))
    = service_ready_event (self st) || status_ready params /\
  (fst (run_handler lang_status_handler params st) = Ok JNull <->
   status_readable params = true) /\
  server_started (self (snd (run_handler lang_status_handler params st)))
    = server_started (self st) /\
  completions_available (self (snd (run_handler lang_status_handler params st)))
    = completions_available (self st) /\
  trace (snd (run_handler lang_status_handler params st)) = trace st.
Proof.
  simpl. unfold run_lang_status_handler, bind, lift, getitem, status_ready,
    status_readable, dict_mem, ret, set_service_ready_event, set_self.
  destruct params as [| b | n | s | l | kvs]; simpl;
    try (rewrite orb_false_r; repeat split; intros; discriminate).
  destruct (dict_get "type" kvs) as [ty|]; simpl;
    [|rewrite orb_false_r; repeat split; intros; discriminate].
  destruct (py_eq_str ty "ServiceReady"); simpl;
    destruct (dict_get "message" kvs) as [msg|]; simpl;
    try destruct (py_eq_str msg "ServiceReady"); simpl;
    rewrite ?orb_false_r, ?orb_true_r;
    repeat split; intros; try reflexivity; discriminate.
Qed.

(** ** More on the [client/registerCapability] handler (lines 115-128) *)

Lemma register_one_frame (r : json) (st : state) :
  server_started (self (snd (register_one r st))) = server_started (self st) /\
  service_ready_event (self (snd (register_one r st)))
    = service_ready_event (self st) /\
  (completions_available (self st) = true ->
   completions_available (self (snd (register_one r st))) = true).
Proof.
  unfold register_one, bind, lift, getitem.
  destruct r as [| b | n | s | l | fields]; simpl; auto.
  destruct (dict_get "method" fields) as [m|]; simpl; auto.
  destruct (py_eq_str m "textDocument/completion"); simpl; auto.
  destruct (dict_get "registerOptions" fields) as [opts|]; simpl; auto.
  destruct opts as [| b | n | s | l | opts]; simpl; auto.
  destruct (dict_get "resolveProvider" opts) as [rp|]; simpl; auto.
  destruct (py_eq_True rp); simpl; auto.
  destruct (dict_get "triggerCharacters" opts) as [tc|]; simpl; auto.
  destruct (py_eq_strlist tc completion_triggers); simpl; auto.
Qed.

Lemma register_all_frame (regs : list json) (st : state) :
  server_started (self (snd (register_all regs st))) = server_started (self st) /\
  service_ready_event (self (snd (register_all regs st)))
    = service_ready_event (self st) /\
  (completions_available (self st) = true ->
   completions_available (self (snd (register_all regs st))) = true).
Proof.
  revert st; induction regs as [|r regs IH]; intros st; simpl.
  - auto.
  - unfold bind. destruct (register_one_frame r st) as [H1 [H2 H3]].
    destruct (register_one r st) as [[[]|e] st1]; simpl in *.
    + destruct (IH st1) as [I1 [I2 I3]].
      rewrite I1, I2, H1, H2. auto.
    + auto.
Qed.

(** X2. Whatever the params, the [client/registerCapability] handler sends
    and logs nothing, leaves [server_started] and [service_ready_event] as
    they are, and never clears [completions_available]. *)
Theorem register_capability_handler_frame (params : json) (st : state) :
  trace (snd (run_handler register_capability_handler params st)) = trace st /\
  server_started
    (self (snd (run_handler register_capability_handler params st)))
    = server_started (self st) /\
  service_ready_event
    (self (snd (run_handler register_capability_handler params st)))
    = service_ready_event (self st) /\
  (completions_available (self st) = true ->
   completions_available
     (self (snd (run_handler register_capability_handler params st))) = true).
Proof.
  simpl. unfold run_register_capability_handler, bind, lift, ret.
  destruct (py_in "registrations" params) as [has|e]; simpl; auto.
  destruct has; simpl; auto.
  destruct (getitem params "registrations") as [regs|e]; simpl; auto.
  destruct (py_iter regs) as [l|e]; simpl; auto.
  pose proof (register_all_trace l st) as Ht.
  destruct (register_all_frame l st) as [H1 [H2 H3]].
  destruct (register_all l st) as [[[]|e] st1]; simpl in *; auto.
Qed.

(** X3. The handler is not atomic: when a completion registration with the
    expected options is followed by one whose options fail an assert, the
    handler raises the assertion error and the event set for the first one
    stays set. *)
Theorem register_capability_handler_partial_effect
  (kvs : dict json) (pre post : list json) (r rp tc : json) (st : state) :
  dict_get "registrations" kvs = Some (JList (pre ++ r :: post)) ->
  forallb accepted pre = true ->
  existsb matching_completion pre = true ->
  is_completion r = true ->
  register_option r "resolveProvider" = Some rp ->
  register_option r "triggerCharacters" = Some tc ->
  py_eq_True rp && py_eq_strlist tc completion_triggers = false ->
  run_handler register_capability_handler (JDict kvs) st
    = (Raise AssertionError, with_completions st).
Proof.
  intros Hregs Hpre Hset Hc Hrp Htc Hdiff. simpl.
  rewrite (run_register_capability_handler_list kvs _ st Hregs).
  rewrite (register_all_app pre (r :: post) st Hpre). simpl. unfold bind.
  rewrite (register_one_mismatch r rp tc _ Hc Hrp Htc Hdiff).
  unfold after_accepted. now rewrite Hset.
Qed.

Lemma register_capability_handler_partial_effect_witness :
  run_handler register_capability_handler
    (JDict [("registrations", JList demo_registrations)]) fresh_state
    = (Raise AssertionError, with_completions fresh_state).
Proof.
  apply (register_capability_handler_partial_effect
           [("registrations", JList demo_registrations)]
           [ JDict [("id", JStr "sync-1");
                    ("method", JStr "textDocument/didChange")];
             completion_registration (JBool true) expected_triggers ]
           []
           (completion_registration (JBool true) (JList [JStr "."]))
           (JBool true) (JList [JStr "."]) fresh_state);
    reflexivity.
Defined.

(** X4. Params the handler cannot read: a dict without ["registrations"]
    fails the first assert; null, a boolean or a number is not a container
    and raises a type error; a dict whose ["registrations"] is null, a
    boolean or a number cannot be iterated and raises a type error.  In
    each case the state is left as it was. *)
Theorem register_capability_handler_malformed_params (st : state) :
  (forall kvs,
     dict_get "registrations" kvs = None ->
     run_handler register_capability_handler (JDict kvs) st
       = (Raise AssertionError, st)) /\
  (forall params,
     params = JNull \/ (exists b, params = JBool b) \/
       (exists n, params = JInt n) ->
     run_handler register_capability_handler params st = (Raise TypeError, st)) /\
  (forall kvs regs,
     dict_get "registrations" kvs = Some regs ->
     regs = JNull \/ (exists b, regs = JBool b) \/ (exists n, regs = JInt n) ->
     run_handler register_capability_handler (JDict kvs) st
       = (Raise TypeError, st)).
Proof.
  simpl. unfold run_register_capability_handler, bind, lift, py_in, getitem,
    dict_mem.
  refine (conj _ (conj _ _)).
  - intros kvs ->. reflexivity.
  - intros params [->|[[b ->]|[n ->]]]; reflexivity.
  - intros kvs regs -> [->|[[b ->]|[n ->]]]; reflexivity.
Qed.

(** ** More on [start_server] (lines 148-177) *)

Section StartupPaths.

Variable os : OS.
Variable be : backend.
Variable base : base_class.
Variable repository_root_path : string.
Variable initialize_params_json : result json.

(** X5. A startup that fails before the handshake: if [server.start()]
    raises, or if it returns and [_get_initialize_params] raises, then
    [start_server] raises that error when [server.start()] has been called
    and nothing has been sent: no initialize request, no shutdown and no
    stop of the process, and the caller's scope is not entered. *)
Theorem start_server_fails_before_handshake {A} (scope : M A) (st : state)
  (e : exn) :
  start_outcome be = Raise e \/
  (start_outcome be = Ok tt /\
   _get_initialize_params os initialize_params_json repository_root_path
     = Raise e) ->
  start_server os be base repository_root_path initialize_params_json scope st
    = (Raise e, base_leave base (Some e) (starting base st)).
Proof.
  intros H.
  unfold start_server, bind at 1. rewrite emit_all_push.
  unfold with_super_start_server, bind, log, server_start, emit, lift,
    base_leave, starting, push.
  simpl.
  destruct H as [H|[H1 H2]].
  - rewrite H. simpl. repeat rewrite <- app_assoc. reflexivity.
  - rewrite H1, H2. simpl. repeat rewrite <- app_assoc. reflexivity.
Qed.

(** X6. Leaving the scope normally: after a successful handshake, when the
    caller's scope returns [r], [start_server] calls [server.shutdown()] and
    then [server.stop()] and returns [r]; if the shutdown raises, the stop
    is never called and the error replaces the scope's result; if the stop
    raises, its error replaces the result. *)
Theorem start_server_leaves_scope {A} (scope : M A) (st st3 : state)
  (initialize_params init_response : json) (r : A) :
  start_outcome be = Ok tt ->
  _get_initialize_params os initialize_params_json repository_root_path
    = Ok initialize_params ->
  respond be "initialize" initialize_params = Ok init_response ->
  sync_change init_response = Some (JInt 2) ->
  scope (push [SendNotification "initialized" (JDict [])]
           (handshaking base initialize_params st)) = (Ok r, st3) ->
  start_server os be base repository_root_path initialize_params_json scope st
    = match shutdown_outcome be, stop_outcome be with
      | Raise e, _ =>
          (Raise e, base_leave base (Some e) (push [ServerShutdown] st3))
      | Ok _, Raise e =>
          (Raise e,
           base_leave base (Some e) (push [ServerShutdown; ServerStop] st3))
      | Ok _, Ok _ =>
          (Ok r, base_leave base None (push [ServerShutdown; ServerStop] st3))
      end.
Proof.
  intros Hstart Hparams Hresp Hsync Hscope.
  rewrite (start_server_answered os be base repository_root_path
             initialize_params_json scope st _ _ Hstart Hparams Hresp).
  apply assert_sync_change_ok in Hsync. rewrite Hsync. simpl.
  rewrite Hscope.
  destruct (shutdown_outcome be) as [[]|e1]; [|reflexivity].
  destruct (stop_outcome be) as [[]|e2]; reflexivity.
Qed.

(** Once the process has started and the parameters are built, the
    initialize request is in the trace, whatever follows. *)
Lemma start_server_sends_initialize {A} (scope : M A) (st : state)
  (initialize_params : json) :
  appends scope ->
  start_outcome be = Ok tt ->
  _get_initialize_params os initialize_params_json repository_root_path
    = Ok initialize_params ->
  exists rest,
    trace (snd (start_server os be base repository_root_path
                  initialize_params_json scope st))
      = trace st ++ register_handlers ++ handshake_events initialize_params
          ++ rest.
Proof.
  intros Hscope Hstart Hparams.
  destruct (respond be "initialize" initialize_params) as [resp|e] eqn:Hresp.
  - rewrite (start_server_answered os be base repository_root_path
               initialize_params_json scope st _ _ Hstart Hparams Hresp).
    cbv zeta.
    destruct (assert_sync_change resp) as [[]|e].
    + match goal with
      | |- context [scope ?s] =>
          destruct (Hscope s) as [es Hes]; destruct (scope s) as [[r|e] st3]
      end; simpl in Hes.
      * destruct (shutdown_outcome be) as [[]|e1];
          [destruct (stop_outcome be) as [[]|e2]|]; simpl; rewrite Hes;
          repeat rewrite <- app_assoc; eexists; reflexivity.
      * simpl. rewrite Hes. repeat rewrite <- app_assoc.
        eexists; reflexivity.
    + exists []. rewrite app_nil_r. reflexivity.
  - exists []. rewrite app_nil_r.
    unfold start_server, bind at 1. rewrite emit_all_push.
    unfold with_super_start_server, bind, log, server_start, send_request,
      emit, lift, push, handshake_events.
    simpl. rewrite Hstart, Hparams. simpl. rewrite Hresp. simpl.
    repeat rewrite <- app_assoc. reflexivity.
Qed.

Lemma get_initialize_params_ok (kvs : dict json) (p : string) :
  markers_match (JDict kvs) = true ->
  isabs (absolute_path os p) = true ->
  _get_initialize_params os (Ok (JDict kvs)) p
    = Ok (JDict (substituted os kvs (absolute_path os p))).
Proof.
  intros Hm Habs. rewrite get_initialize_params_dict.
  simpl in Hm. unfold holds_marker in Hm.
  apply andb_true_iff in Hm as [Hm H4]. apply andb_true_iff in Hm as [Hm H3].
  apply andb_true_iff in Hm as [H1 H2].
  destruct (dict_get "processId" kvs); [|discriminate]. rewrite H1.
  destruct (dict_get "rootPath" kvs); [|discriminate]. rewrite H2.
  destruct (dict_get "rootUri" kvs); [|discriminate]. rewrite H3.
  destruct (dict_get "workspaceFolders" kvs); [|discriminate].
  now rewrite H4, Habs.
Qed.

End StartupPaths.

(** X7. What the server is told: with a template whose four placeholders
    hold their markers and an absolute working path, once the process has
    started the initialize request carries the template with the process
    id, the path, its file URI and the workspace folder in the place of the
    placeholders, whatever the server answers and whatever the scope
    does. *)
Theorem initialize_request_carries_substituted_template
  (os : OS) (be : backend) (base : base_class) (root : string)
  (kvs : dict json) {A} (scope : M A) (st : state) :
  appends scope ->
  start_outcome be = Ok tt ->
  markers_match (JDict kvs) = true ->
  isabs (absolute_path os root) = true ->
  In (SendRequest "initialize"
        (JDict (substituted os kvs (absolute_path os root))))
     (trace (snd (start_server os be base root (Ok (JDict kvs)) scope st))).
Proof.
  intros Hscope Hstart Hm Habs.
  destruct (start_server_sends_initialize os be base root (Ok (JDict kvs))
              scope st _ Hscope Hstart
              (get_initialize_params_ok os kvs root Hm Habs)) as [rest ->].
  apply in_or_app. right. apply in_or_app. right.
  apply in_or_app. left. simpl. auto.
Qed.

Lemma start_server_fails_before_handshake_witness :
  start_server demo_os dead_backend demo_base "/repo" (Ok demo_template)
    (request_workspace_symbols dead_backend "Foo") fresh_state
    = (Raise (BackendError "sourcekit-lsp not found"),
       base_leave demo_base (Some (BackendError "sourcekit-lsp not found"))
         (starting demo_base fresh_state)).
Proof.
  apply (start_server_fails_before_handshake demo_os dead_backend demo_base
           "/repo" (Ok demo_template)
           (request_workspace_symbols dead_backend "Foo") fresh_state).
  left. reflexivity.
Defined.

Lemma start_server_leaves_scope_witness :
  start_server demo_os stuck_backend demo_base "/repo" (Ok demo_template)
    (request_workspace_symbols stuck_backend "Foo") fresh_state
    = (Raise (BackendError "shutdown timed out"),
       base_leave demo_base (Some (BackendError "shutdown timed out"))
         (push [ServerShutdown]
            (push [SendRequest "workspace/symbol" (JDict [("query", JStr "Foo")])]
               (push [SendNotification "initialized" (JDict [])]
                  (handshaking demo_base demo_initialize_params fresh_state))))).
Proof.
  apply (start_server_leaves_scope demo_os stuck_backend demo_base "/repo"
           (Ok demo_template) (request_workspace_symbols stuck_backend "Foo")
           fresh_state _ demo_initialize_params demo_init_response []);
    reflexivity.
Defined.

Lemma initialize_request_carries_substituted_template_witness :
  In (SendRequest "initialize" demo_initialize_params)
     (trace (snd (start_server demo_os full_sync_backend demo_base "/repo"
                    (Ok demo_template)
                    (request_workspace_symbols full_sync_backend "Foo")
                    fresh_state))).
Proof.
  apply (initialize_request_carries_substituted_template demo_os
           full_sync_backend demo_base "/repo"
           [ ("processId", JStr processId_marker);
             ("clientInfo", JDict [("name", JStr "multilspy")]);
             ("rootPath", JStr rootPath_marker);
             ("rootUri", JStr rootUri_marker);
             ("capabilities", JDict []);
             ("workspaceFolders", JStr workspaceFolders_marker) ]
           (request_workspace_symbols full_sync_backend "Foo") fresh_state).
  - apply appends_request_workspace_symbols.
  - reflexivity.
  - reflexivity.
  - reflexivity.
Defined.

(** ** Paths of [request_rename] (lines 200-210) *)

(** X8. A path that has no file URI: on a started session, if the
    repository root joined with the file path is not absolute, the query
    raises [ValueError] and the rename request is never sent. *)
Theorem request_rename_relative_path
  (os : OS) (be : backend) (root : string) (dop dcl : string -> json)
  (p : string) (l c : Z) (n : string) (st : state) :
  server_started (self st) = true ->
  isabs (path_join root p) = false ->
  fst (request_rename os be root dop dcl p l c n st) = Raise ValueError /\
  trace (snd (request_rename os be root dop dcl p l c n st))
    = trace st ++ [did_open dop p; did_close dcl p].
Proof.
  intros Hs Habs. rewrite request_rename_started by assumption.
  unfold as_uri. rewrite Habs. split; reflexivity.
Qed.

Lemma request_rename_relative_path_witness :
  fst (request_rename demo_os demo_backend "repo" demo_params demo_params
         "a.swift" 3 4 "foo" started_state) = Raise ValueError /\
  trace (snd (request_rename demo_os demo_backend "repo" demo_params
                demo_params "a.swift" 3 4 "foo" started_state))
    = trace started_state
        ++ [did_open demo_params "a.swift"; did_close demo_params "a.swift"].
Proof.
  apply (request_rename_relative_path demo_os demo_backend "repo" demo_params
           demo_params "a.swift" 3 4 "foo" started_state);
    reflexivity.
Defined.

Lemma isabs_app (a b : string) : isabs a = true -> isabs (a ++ b) = true.
Proof.
  unfold isabs. destruct a as [|ch a].
  - intros H. cbv in H. discriminate H.
  - change (String ch a ++ b)%string with (String ch (a ++ b)%string).
    cbn [prefix]. destruct (ascii_dec "/" ch); [|discriminate].
    intros _. now destruct (a ++ b)%string.
Qed.

Lemma not_isabs_app (a b : string) :
  a <> "" -> isabs a = false -> isabs (a ++ b) = false.
Proof.
  unfold isabs. destruct a as [|ch a].
  - congruence.
  - change (String ch a ++ b)%string with (String ch (a ++ b)%string).
    cbn [prefix]. destruct (ascii_dec "/" ch); [|reflexivity].
    intros _. now destruct a.
Qed.

(** X9. The example passes [FILE_PATH], which already starts with the
    workspace path, as the relative file path.  With an absolute workspace
    path as the repository root, the rename request that is sent has the
    file URI of [FILE_PATH] itself as its [textDocument.uri], with the
    position and the new name: the root is not put in front a second time.
    With a relative, non-empty workspace path the query raises
    [ValueError]. *)
Theorem example_rename_file_path
  (os : OS) (be : backend) (dop dcl : string -> json)
  (WORKSPACE_PATH rel : string) (l c : Z) (n : string) (st : state) :
  server_started (self st) = true ->
  (isabs WORKSPACE_PATH = true ->
   trace (snd (request_rename os be WORKSPACE_PATH dop dcl
                 (FILE_PATH WORKSPACE_PATH rel) l c n st))
     = trace st
         ++ [ SendNotification "textDocument/didOpen"
                (dop (WORKSPACE_PATH ++ "/" ++ rel)%string);
              SendRequest "textDocument/rename"
                (JDict
                   [ ("textDocument",
                      JDict [("uri",
                              JStr (file_uri os
                                      (WORKSPACE_PATH ++ "/" ++ rel)%string))]);
                     ("position",
                      JDict [("line", JInt l); ("character", JInt c)]);
                     ("newName", JStr n) ]);
              SendNotification "textDocument/didClose"
                (dcl (WORKSPACE_PATH ++ "/" ++ rel)%string) ]) /\
  (WORKSPACE_PATH <> "" -> isabs WORKSPACE_PATH = false ->
   fst (request_rename os be WORKSPACE_PATH dop dcl
          (FILE_PATH WORKSPACE_PATH rel) l c n st) = Raise ValueError).
Proof.
  intros Hs. split.
  - intros Habs.
    rewrite request_rename_started by assumption.
    assert (Hf : isabs (FILE_PATH WORKSPACE_PATH rel) = true)
      by (apply isabs_app; exact Habs).
    unfold path_join, as_uri. rewrite Hf, Hf.
    destruct (respond be "textDocument/rename"
                (rename_params (file_uri os (FILE_PATH WORKSPACE_PATH rel))
                   l c n)); reflexivity.
  - intros Hne Hrel.
    rewrite request_rename_started by assumption.
    assert (Hf : isabs (FILE_PATH WORKSPACE_PATH rel) = false)
      by (apply not_isabs_app; assumption).
    unfold path_join, as_uri. rewrite Hf.
    assert (He : String.eqb WORKSPACE_PATH "" = false)
      by (now apply String.eqb_neq).
    rewrite He. simpl orb.
    destruct (ends_with_slash WORKSPACE_PATH);
      rewrite not_isabs_app by assumption; reflexivity.
Qed.

Lemma example_rename_file_path_witness :
  trace (snd (request_rename demo_os demo_backend "/repo" JStr JStr
                (FILE_PATH "/repo" "a.swift") 3 4 "foo"
                started_state))
    = [ SendNotification "textDocument/didOpen"
          (JStr "/repo/a.swift");
        SendRequest "textDocument/rename"
          (JDict
             [ ("textDocument", JDict [("uri", JStr "file:///repo/a.swift")]);
               ("position", JDict [("line", JInt 3); ("character", JInt 4)]);
               ("newName", JStr "foo") ]);
        SendNotification "textDocument/didClose"
          (JStr "/repo/a.swift") ] /\
  fst (request_rename demo_os demo_backend "repo" demo_params demo_params
         (FILE_PATH "repo" "a.swift") 3 4 "foo" started_state)
    = Raise ValueError.
Proof.
  split.
  - apply (proj1 (example_rename_file_path demo_os demo_backend JStr
                    JStr "/repo" "a.swift" 3 4 "foo" started_state
                    eq_refl)).
    reflexivity.
  - apply (proj2 (example_rename_file_path demo_os demo_backend demo_params
                    demo_params "repo" "a.swift" 3 4 "foo" started_state
                    eq_refl)).
    + discriminate.
    + reflexivity.
Defined.

(** ** More on [_get_initialize_params] (lines 64-97) *)

(** X10. The method does not accept its own result: whatever it returns,
    given back as the template it fails the first assert, since [processId]
    then holds the process id and not the placeholder.  The template has to
    be loaded anew for every call. *)
Theorem get_initialize_params_rejects_its_result
  (os os' : OS) (d ret : json) (p p' : string) :
  _get_initialize_params os (Ok d) p = Ok ret ->
  _get_initialize_params os' (Ok ret) p' = Raise AssertionError.
Proof.
  intros H.
  destruct d as [| b | n | s | l | kvs]; try discriminate.
  rewrite get_initialize_params_dict in H.
  destruct (dict_get "processId" kvs) as [v1|]; [|discriminate].
  destruct (negb (py_eq_str v1 processId_marker)); [discriminate|].
  destruct (dict_get "rootPath" kvs) as [v2|]; [|discriminate].
  destruct (negb (py_eq_str v2 rootPath_marker)); [discriminate|].
  destruct (dict_get "rootUri" kvs) as [v3|]; [|discriminate].
  destruct (negb (py_eq_str v3 rootUri_marker)); [discriminate|].
  destruct (negb (isabs (absolute_path os p))); [discriminate|].
  destruct (dict_get "workspaceFolders" kvs) as [v4|]; [|discriminate].
  destruct (negb (py_eq_str v4 workspaceFolders_marker)); [discriminate|].
  injection H as <-.
  rewrite get_initialize_params_dict. unfold substituted.
  rewrite !dict_get_set. reflexivity.
Qed.

Lemma get_initialize_params_rejects_its_result_witness :
  _get_initialize_params demo_os (Ok demo_initialize_params) "/repo"
    = Raise AssertionError.
Proof.
  apply (get_initialize_params_rejects_its_result demo_os demo_os
           demo_template demo_initialize_params "/repo" "/repo").
  reflexivity.
Defined.

(** X11. The errors of the method on a loaded template, the working path
    being absolute: a template that is not a dict raises a type error; on a
    dict, a failure is an assertion error or a key error that names a
    placeholder field the template lacks. *)
Theorem get_initialize_params_errors (os : OS) (d : json) (p : string)
  (e : exn) :
  isabs (absolute_path os p) = true ->
  _get_initialize_params os (Ok d) p = Raise e ->
  (isinstance_dict d = false /\ e = TypeError) \/
  e = AssertionError \/
  (exists kvs k,
     d = JDict kvs /\ In k placeholder_fields /\ dict_get k kvs = None /\
     e = KeyError k).
Proof.
  intros Habs H.
  destruct d as [| b | n | s | l | kvs];
    try (left; split; [reflexivity | now injection H]).
  right. rewrite get_initialize_params_dict, Habs in H.
  unfold placeholder_fields.
  destruct (dict_get "processId" kvs) as [v1|] eqn:E1;
    [|right; exists kvs, "processId"; injection H as <-;
     repeat split; trivial; simpl; tauto].
  destruct (negb (py_eq_str v1 processId_marker));
    [left; now injection H|].
  destruct (dict_get "rootPath" kvs) as [v2|] eqn:E2;
    [|right; exists kvs, "rootPath"; injection H as <-;
     repeat split; trivial; simpl; tauto].
  destruct (negb (py_eq_str v2 rootPath_marker));
    [left; now injection H|].
  destruct (dict_get "rootUri" kvs) as [v3|] eqn:E3;
    [|right; exists kvs, "rootUri"; injection H as <-;
     repeat split; trivial; simpl; tauto].
  destruct (negb (py_eq_str v3 rootUri_marker));
    [left; now injection H|].
  simpl in H.
  destruct (dict_get "workspaceFolders" kvs) as [v4|] eqn:E4;
    [|right; exists kvs, "workspaceFolders"; injection H as <-;
     repeat split; trivial; simpl; tauto].
  destruct (negb (py_eq_str v4 workspaceFolders_marker));
    [left; now injection H | discriminate].
Qed.

Lemma get_initialize_params_errors_witness :
  (isinstance_dict (JDict [("processId", JStr processId_marker)]) = false /\
   KeyError "rootPath" = TypeError) \/
  KeyError "rootPath" = AssertionError \/
  (exists kvs k,
     JDict [("processId", JStr processId_marker)] = JDict kvs /\
     In k placeholder_fields /\ dict_get k kvs = None /\
     KeyError "rootPath" = KeyError k).
Proof.
  apply (get_initialize_params_errors demo_os
           (JDict [("processId", JStr processId_marker)]) "/repo"
           (KeyError "rootPath"));
    reflexivity.
Defined.

(** ** The fields of a workspace symbol (lines 253-268) *)

Lemma Forall2_nth_error {A B} (R : A -> B -> Prop) (l : list A) (l' : list B)
  (i : nat) (a : A) (b : B) :
  Forall2 R l l' -> nth_error l i = Some a -> nth_error l' i = Some b -> R a b.
Proof.
  intros HF. revert i.
  induction HF as [|x y l l' Hxy HF IH]; intros [|i]; simpl; try discriminate.
  - now intros [= <-] [= <-].
  - apply IH.
Qed.

Lemma symbol_of_item_fields (fields : dict json) (sym : WorkspaceSymbol) :
  symbol_of_item (JDict fields) = Ok sym ->
  dict_keys sym
    = ["name"; "kind"; "location"]
        ++ filter (fun k => dict_mem k fields) optional_fields /\
  (forall k, In k ("name" :: "kind" :: optional_fields) ->
             dict_get k sym = dict_get k fields) /\
  (forall k, ~ In k ("name" :: "kind" :: "location" :: optional_fields) ->
             dict_get k sym = None).
Proof.
  intros Hsym. simpl in Hsym.
  unfold symbol_location, getitem in Hsym; simpl in Hsym.
  destruct (dict_get "name" fields) as [name|] eqn:En; simpl in Hsym;
    [|discriminate].
  destruct (dict_get "kind" fields) as [kind|] eqn:Ek; simpl in Hsym;
    [|discriminate].
  match type of Hsym with
  | rbind ?loc _ = _ => destruct loc as [location|e]; simpl in Hsym;
                        [|discriminate]
  end.
  injection Hsym as <-. unfold optional_fields, dict_mem. simpl.
  destruct (dict_get "containerName" fields) as [cn|] eqn:Ec;
    destruct (dict_get "tags" fields) as [tg|] eqn:Et;
    destruct (dict_get "data" fields) as [dt|] eqn:Ed; simpl;
    (split; [reflexivity|]); split;
    try (intros k [<-|[<-|[<-|[<-|[<-|[]]]]]]; simpl; congruence);
    intros k Hk;
    repeat match goal with
           | |- context [String.eqb k ?s] =>
               let E := fresh "E" in
               destruct (String.eqb k s) eqn:E;
               [apply String.eqb_eq in E; subst k; exfalso; apply Hk;
                simpl; tauto|]
           end;
    reflexivity.
Qed.

(** X12. Which fields a returned symbol has: on a started session, the
    symbol built from a dict item has the keys [name], [kind], [location]
    followed by those of [containerName], [tags], [data] that the item has,
    in this order whatever the order in the item; [name], [kind] and the
    optional fields carry the item's values unchanged, whatever their type
    (a field present with the value null is copied as null); every other
    field of the item is dropped. *)
Theorem request_workspace_symbols_fields
  (be : backend) (q : string) (st : state) (items : list json)
  (ret : list WorkspaceSymbol) (i : nat) (fields : dict json)
  (sym : WorkspaceSymbol) :
  server_started (self st) = true ->
  respond be "workspace/symbol" (JDict [("query", JStr q)]) = Ok (JList items) ->
  fst (request_workspace_symbols be q st) = Ok ret ->
  nth_error items i = Some (JDict fields) ->
  nth_error ret i = Some sym ->
  dict_keys sym
    = ["name"; "kind"; "location"]
        ++ filter (fun k => dict_mem k fields) ["containerName"; "tags"; "data"] /\
  (forall k, In k ["name"; "kind"; "containerName"; "tags"; "data"] ->
             dict_get k sym = dict_get k fields) /\
  (forall k,
     ~ In k ["name"; "kind"; "location"; "containerName"; "tags"; "data"] ->
     dict_get k sym = None).
Proof.
  intros Hs Hresp Hret Hi Hsym.
  rewrite request_workspace_symbols_started, Hresp in Hret by assumption.
  simpl in Hret. apply symbols_loop_ok in Hret as [syms [-> HF]].
  simpl in Hsym.
  apply (symbol_of_item_fields fields sym).
  exact (Forall2_nth_error _ _ _ _ _ _ HF Hi Hsym).
Qed.

Lemma request_workspace_symbols_fields_witness :
  dict_keys [ ("name", JStr "Foo"); ("kind", JInt 5);
              ("location", JDict [("uri", JStr "file:///a.swift");
                                  ("range", demo_range)]);
              ("containerName", JStr "App") ]
    = ["name"; "kind"; "location"]
        ++ filter (fun k =>
                     dict_mem k
                       [ ("name", JStr "Foo"); ("kind", JInt 5);
                         ("location", JDict [("uri", JStr "file:///a.swift");
                                             ("range", demo_range)]);
                         ("containerName", JStr "App") ])
             ["containerName"; "tags"; "data"].
Proof.
  apply (request_workspace_symbols_fields symbols_backend "Foo" started_state
           demo_symbols
           [ [ ("name", JStr "Foo"); ("kind", JInt 5);
               ("location", JDict [("uri", JStr "file:///a.swift");
                                   ("range", demo_range)]);
               ("containerName", JStr "App") ];
             [ ("name", JStr "bar"); ("kind", JInt 12);
               ("location", JDict [("uri", JStr "file:///b.swift")]) ] ]
           0
           [ ("name", JStr "Foo"); ("kind", JInt 5);
             ("location", JDict [("uri", JStr "file:///a.swift");
                                 ("range", demo_range)]);
             ("containerName", JStr "App") ]
           [ ("name", JStr "Foo"); ("kind", JInt 5);
             ("location", JDict [("uri", JStr "file:///a.swift");
                                 ("range", demo_range)]);
             ("containerName", JStr "App") ]);
    reflexivity.
Defined.

(** ** A scope that raises (lines 174-177) *)

(** X13. After a successful handshake, if the caller's scope raises [e],
    [start_server] raises [e] and the trace is the one the scope left:
    nothing is sent after the failure, neither the shutdown request nor the
    stop of the process, for every backend and every scope. *)
Theorem start_server_scope_raises
  (os : OS) (be : backend) (base : base_class) (root : string)
  (tpl : result json) {A} (scope : M A) (st st3 : state)
  (initialize_params init_response : json) (e : exn) :
  start_outcome be = Ok tt ->
  _get_initialize_params os tpl root = Ok initialize_params ->
  respond be "initialize" initialize_params = Ok init_response ->
  sync_change init_response = Some (JInt 2) ->
  scope (push [SendNotification "initialized" (JDict [])]
           (handshaking base initialize_params st)) = (Raise e, st3) ->
  start_server os be base root tpl scope st
    = (Raise e, base_leave base (Some e) st3).
Proof.
  intros Hstart Hparams Hresp Hsync Hscope.
  rewrite (start_server_answered os be base root tpl scope st _ _
             Hstart Hparams Hresp).
  apply assert_sync_change_ok in Hsync. rewrite Hsync. simpl.
  now rewrite Hscope.
Qed.

Lemma start_server_scope_raises_witness :
  start_server demo_os demo_backend demo_base "/repo" (Ok demo_template)
    (raise (MultilspyException "caller failed") : M unit) fresh_state
    = (Raise (MultilspyException "caller failed"),
       base_leave demo_base (Some (MultilspyException "caller failed"))
         (push [SendNotification "initialized" (JDict [])]
            (handshaking demo_base demo_initialize_params fresh_state))).
Proof.
  apply (start_server_scope_raises demo_os demo_backend demo_base "/repo"
           (Ok demo_template)
           (raise (MultilspyException "caller failed") : M unit)
           fresh_state _ demo_initialize_params demo_init_response
           (MultilspyException "caller failed"));
    reflexivity.
Defined.
